(** * pyvider cty: the structural type descriptors

    A shallow embedding of [src/types]: the primitive descriptors
    ([CtyBool], [CtyNumber], [CtyString]), the collections ([CtyList],
    [CtySet], [CtyMap]) and the structural descriptors ([CtyObject],
    [CtyTuple], [CtyDynamic]), with their [validate], [equal] and
    [usable_as] methods, followed by the properties the specification
    states about them. *)

From stdpp Require Import gmap strings list.
From Stdlib Require Import ZArith.

Local Open Scope Z_scope.
Local Open Scope string_scope.

(** ** Python values and classes *)

(** The classes the type system tests with [isinstance]/[issubclass]. *)
Inductive PyClass :=
| c_object | c_NoneType | c_bool | c_int | c_float | c_str | c_bytes
| c_list | c_tuple | c_dict | c_mappingproxy | c_set | c_frozenset
| c_CtyType | c_CtyBool | c_CtyNumber | c_CtyString
| c_CtyList | c_CtySet | c_CtyMap
| c_CtyObject | c_CtyTuple | c_CtyDynamic.

Global Instance PyClass_eq_dec : EqDecision PyClass.
Proof. solve_decision. Defined.

(** Run-time values.  A descriptor instance is itself a value ([PCty]):
    the primitives and [CtySet] carry a [value] field, and [validate] hands
    such instances back.  Dictionaries and sets are kept in iteration order.
    A float is an opaque payload: no method looks inside one, and its
    comparison with an integer is left out. *)
#[warnings="-register-all"]
Inductive PyVal :=
| PNone
| PBool (b : bool)
| PInt (n : Z)
| PFloat (bits : Z)
| PStr (s : string)
| PBytes (s : string)
| PList (items : list PyVal)
| PTuple (items : list PyVal)
| PDict (entries : list (PyVal * PyVal))
| PMappingProxy (entries : list (PyVal * PyVal))
| PSet (items : list PyVal)
| PFrozenSet (items : list PyVal)
| PObject (id : nat)
| PCty (t : CtyType)
with CtyType :=
| CtyBool (value : PyVal)
| CtyNumber (value : PyVal)
| CtyString (value : PyVal)
| CtyList (element_type : CtyType)
| CtySet (element_type : CtyType) (value : list PyVal)
| CtyMap (key_type value_type : CtyType) (metadata default : PyVal)
         (mutable : bool)
| CtyObject (attribute_types : list (string * CtyType))
            (optional_attributes computed_attributes
             block_attributes sensitive_attributes : gset string)
| CtyTuple (types : list PyClass)
| CtyDynamic.

(** [type(t)] of a descriptor and [type(v)] of a value. *)
Definition cty_class (t : CtyType) : PyClass :=
  match t with
  | CtyBool _ => c_CtyBool
  | CtyNumber _ => c_CtyNumber
  | CtyString _ => c_CtyString
  | CtyList _ => c_CtyList
  | CtySet _ _ => c_CtySet
  | CtyMap _ _ _ _ _ => c_CtyMap
  | CtyObject _ _ _ _ _ => c_CtyObject
  | CtyTuple _ => c_CtyTuple
  | CtyDynamic => c_CtyDynamic
  end.

Definition class_of (v : PyVal) : PyClass :=
  match v with
  | PNone => c_NoneType
  | PBool _ => c_bool
  | PInt _ => c_int
  | PFloat _ => c_float
  | PStr _ => c_str
  | PBytes _ => c_bytes
  | PList _ => c_list
  | PTuple _ => c_tuple
  | PDict _ => c_dict
  | PMappingProxy _ => c_mappingproxy
  | PSet _ => c_set
  | PFrozenSet _ => c_frozenset
  | PObject _ => c_object
  | PCty t => cty_class t
  end.

(** [cls.__name__]. *)
Definition class_name (c : PyClass) : string :=
  match c with
  | c_object => "object" | c_NoneType => "NoneType" | c_bool => "bool"
  | c_int => "int" | c_float => "float" | c_str => "str"
  | c_bytes => "bytes" | c_list => "list" | c_tuple => "tuple"
  | c_dict => "dict" | c_mappingproxy => "mappingproxy" | c_set => "set"
  | c_frozenset => "frozenset" | c_CtyType => "CtyType"
  | c_CtyBool => "CtyBool" | c_CtyNumber => "CtyNumber"
  | c_CtyString => "CtyString" | c_CtyList => "CtyList"
  | c_CtySet => "CtySet" | c_CtyMap => "CtyMap"
  | c_CtyObject => "CtyObject" | c_CtyTuple => "CtyTuple"
  | c_CtyDynamic => "CtyDynamic"
  end.

Definition type_name (v : PyVal) : string := class_name (class_of v).

(** The direct base class; [bool] derives from [int], every descriptor
    class from [CtyType]. *)
Definition base_class (c : PyClass) : option PyClass :=
  match c with
  | c_object => None
  | c_bool => Some c_int
  | c_CtyBool | c_CtyNumber | c_CtyString | c_CtyList | c_CtySet
  | c_CtyMap | c_CtyObject | c_CtyTuple | c_CtyDynamic => Some c_CtyType
  | _ => Some c_object
  end.

(** [issubclass(c, d)]: no chain of bases is longer than three. *)
Definition issubclass (c d : PyClass) : bool :=
  bool_decide (c = d)
  || match base_class c with
     | None => false
     | Some b =>
         bool_decide (b = d)
         || match base_class b with
            | None => false
            | Some b' => bool_decide (b' = d)
            end
     end.

(** [isinstance(v, (c1, ..., cn))]. *)
Definition isinstance (v : PyVal) (cs : list PyClass) : bool :=
  existsb (issubclass (class_of v)) cs.

(** ** Exceptions

    A message is kept as the format string that builds it together with its
    arguments, so that what a message mentions can be read off. *)

Inductive ExcClass :=
| PyviderError | ValidationError | AttributeValidationError
| InvalidTypeError | SchemaValidationError
| AttributeError | TypeError.

Global Instance ExcClass_eq_dec : EqDecision ExcClass.
Proof. solve_decision. Defined.

#[warnings="-register-all"]
Inductive Msg :=
| MustBeBoolean                            (* "Value must be a boolean." *)
| MustBeNumber                             (* "Value must be a number." *)
| MustBeString                             (* "Value must be a string." *)
| ExpectedListOrTuple (tn : string)        (* "Expected list or tuple, got {tn}" *)
| InvalidElementAtIndex (i : nat) (e : Msg) (* "Invalid element at index {i}: {e}" *)
| ExpectedIterable (tn : string)           (* "Expected iterable, got {tn}" *)
| NestedSets                               (* "Nested sets are not allowed in CtySet." *)
| SetValidationFailed (errs : list (nat * PyVal * Msg))
                                           (* "CtySet validation failed:" and one
                                              "Item {i}: {item} -> {e}" per entry *)
| FailedToAdd (e : Msg)                    (* "Failed to add element: {e}" *)
| FailedToRemove (e : Msg)                 (* "Failed to remove item: {e}" *)
| ExpectedDict (tn : string)               (* "Expected dict, got {tn}" *)
| InvalidNestedDict (cn : string)          (* "Invalid type for nested dict. Expected {cn}." *)
| InvalidMapValue (tn cn : string)         (* "Invalid type for map value: {tn}. Expected {cn}." *)
| ExpectedDictionary (tn : string) (v : PyVal)
                                           (* "Expected a dictionary, got {tn}: {v}" *)
| MissingRequired (name : string)          (* "Missing required attribute: {name}" *)
| UnknownAttributes (names : list string)  (* "Unknown attributes: {', '.join(names)}" *)
| InvalidValueForAttribute (name : string) (e : Msg)
                                           (* "Invalid value for attribute '{name}': {e}" *)
| ErrorValidatingAttribute (name : string) (e : Msg)
                                           (* "Error validating attribute '{name}': {e}" *)
| UnknownOptional (names : list string)    (* "Unknown optional attributes: ..." *)
| UnknownComputed (names : list string)    (* "Unknown computed attributes: ..." *)
| UnknownBlock (names : list string)       (* "Unknown block attributes: ..." *)
| UnknownSensitive (names : list string)   (* "Unknown sensitive attributes: ..." *)
| ExpectedTuple (tn : string) (v : PyVal)  (* "Expected a tuple, got {tn}: {v}" *)
| ExpectedElements (n m : nat) (v : PyVal) (* "Expected {n} elements, got {m}: {v}" *)
| ElementExpectedType (i : nat) (cn tn : string) (item : PyVal)
                                           (* "Element {i} expected type {cn}, got {tn}: {item}" *)
| UnsupportedDynamic                       (* "Unsupported value for CtyDynamic. ..." *)
| NoAttribute (cn attr : string)           (* "'{cn}' object has no attribute '{attr}'" *)
| Unhashable (tn : string)                 (* "unhashable type: '{tn}'" *)
| JoinExpectedStr (tn : string).           (* "sequence item 0: expected str instance, {tn} found" *)

Record PyExc := mkExc { exc_class : ExcClass; exc_msg : Msg }.

(** Modelled from the spec: the exception classes of [pyvider.cty.exceptions],
    which is not among the sources.  The specification describes one
    [ValidationError] family with the specialisations
    [AttributeValidationError], [SchemaValidationError] and
    [InvalidTypeError]; [PyviderError] is the package's base error. *)
Definition is_ValidationError (c : ExcClass) : bool :=
  match c with
  | ValidationError | AttributeValidationError
  | InvalidTypeError | SchemaValidationError => true
  | _ => false
  end.

(** The outcome of a call: a returned value or a raised exception. *)
Inductive Result (A : Type) :=
| Ok (a : A)
| Raise (e : PyExc).
Arguments Ok {A} a.
Arguments Raise {A} e.

Global Instance Result_ret : MRet Result := fun A a => Ok a.

Global Instance Result_bind : MBind Result := fun A B k r =>
  match r with
  | Ok a => k a
  | Raise e => Raise e
  end.

Global Instance Result_fmap : FMap Result := fun A B f r =>
  match r with
  | Ok a => Ok (f a)
  | Raise e => Raise e
  end.

Definition raise {A} (c : ExcClass) (m : Msg) : Result A := Raise (mkExc c m).

Definition succeeds {A} (r : Result A) : bool :=
  match r with Ok _ => true | Raise _ => false end.

(** ** Hashing and [==]

    Sets and dictionaries store an element unless one with the same hash
    that compares equal is already there.  [HashVal] stands for a hash up
    to collisions between unequal values. *)

#[warnings="-register-all"]
Inductive HashVal :=
| HNone
| HNum (n : Z)
| HFloat (bits : Z)
| HStr (s : string)
| HBytes (s : string)
| HSeq (hs : list HashVal)
| HFrozen
| HId (id : nat)
| HCls (c : PyClass).

Fixpoint HashVal_eqb (h k : HashVal) : bool :=
  match h, k with
  | HNone, HNone | HFrozen, HFrozen => true
  | HNum n, HNum m | HFloat n, HFloat m => bool_decide (n = m)
  | HStr s, HStr s' | HBytes s, HBytes s' => bool_decide (s = s')
  | HSeq hs, HSeq ks =>
      (fix go (hs ks : list HashVal) : bool :=
         match hs, ks with
         | [], [] => true
         | h :: hs, k :: ks => HashVal_eqb h k && go hs ks
         | _, _ => false
         end) hs ks
  | HId i, HId j => bool_decide (i = j)
  | HCls c, HCls d => bool_decide (c = d)
  | _, _ => false
  end.

(** [hash(v)], or the name of the type reported unhashable.  [CtyBool] and
    [CtyNumber] hash their value, [CtyString] hashes [(cls,)], the frozen
    dataclass [CtyList] hashes its field tuple and so does the generated
    [__hash__] of [CtyObject], whose first field is a dictionary; the other
    descriptor classes define [__eq__] without [__hash__]. *)
Fixpoint py_hash (v : PyVal) : HashVal + string :=
  match v with
  | PNone => inl HNone
  | PBool b => inl (HNum (if b then 1 else 0))
  | PInt n => inl (HNum n)
  | PFloat bits => inl (HFloat bits)
  | PStr s => inl (HStr s)
  | PBytes s => inl (HBytes s)
  | PTuple items =>
      match (fix go (l : list PyVal) : list HashVal + string :=
               match l with
               | [] => inl []
               | x :: l =>
                   match py_hash x with
                   | inl h => match go l with
                              | inl hs => inl (h :: hs)
                              | inr tn => inr tn
                              end
                   | inr tn => inr tn
                   end
               end) items with
      | inl hs => inl (HSeq hs)
      | inr tn => inr tn
      end
  | PFrozenSet _ => inl HFrozen
  | PObject id => inl (HId id)
  | PCty t => cty_hash t
  | PList _ | PDict _ | PMappingProxy _ | PSet _ => inr (type_name v)
  end
with cty_hash (t : CtyType) : HashVal + string :=
  match t with
  | CtyBool value | CtyNumber value => py_hash value
  | CtyString _ => inl (HSeq [HCls c_CtyString])
  | CtyList element_type =>
      match cty_hash element_type with
      | inl h => inl (HSeq [h])
      | inr tn => inr tn
      end
  | CtyObject _ _ _ _ _ => inr "dict"
  | _ => inr (class_name (cty_class t))
  end.

Definition same_hash (x y : PyVal) : bool :=
  match py_hash x, py_hash y with
  | inl h, inl k => HashVal_eqb h k
  | _, _ => false
  end.

(** The entries of a mapping value, [None] for anything else. *)
Definition mapping_entries (v : PyVal) : option (list (PyVal * PyVal)) :=
  match v with
  | PDict d | PMappingProxy d => Some d
  | _ => None
  end.

Definition set_items (v : PyVal) : option (list PyVal) :=
  match v with
  | PSet l | PFrozenSet l => Some l
  | _ => None
  end.

(** [name in attribute_types] and [attribute_types[name]]. *)
Fixpoint attr_lookup (name : string) (attrs : list (string * CtyType))
  : option CtyType :=
  match attrs with
  | [] => None
  | (n, t) :: attrs => if bool_decide (n = name) then Some t
                       else attr_lookup name attrs
  end.

(** [set(attribute_types)]. *)
Definition attribute_names (attrs : list (string * CtyType)) : gset string :=
  list_to_set (attrs.*1).

(** Element-wise comparison of two sequences, over the comparison of the
    elements. *)
Fixpoint seq_eq {A : Type} (eq : A -> PyVal -> bool) (l : list A)
    (r : list PyVal) : bool :=
  match l, r with
  | [], [] => true
  | x :: l, y :: r => eq x y && seq_eq eq l r
  | _, _ => false
  end.

(** [v == o], through [v.__eq__(o)]; a native value never equals a
    descriptor instance (the reflected [__eq__] of every descriptor class
    starts with an [isinstance] test that fails).  [cty_eq] is the [__eq__]
    of the descriptor classes and [equal] their [equal] method. *)
Fixpoint py_eq (v o : PyVal) {struct v} : bool :=
  match v with
  | PNone => match o with PNone => true | _ => false end
  | PBool b =>
      match o with
      | PBool c => bool_decide (b = c)
      | PInt m => bool_decide ((if b then 1 else 0) = m)
      | _ => false
      end
  | PInt n =>
      match o with
      | PBool c => bool_decide (n = (if c then 1 else 0))
      | PInt m => bool_decide (n = m)
      | _ => false
      end
  | PFloat x => match o with PFloat y => bool_decide (x = y) | _ => false end
  | PStr s => match o with PStr s' => bool_decide (s = s') | _ => false end
  | PBytes s => match o with PBytes s' => bool_decide (s = s') | _ => false end
  | PList l => match o with PList r => seq_eq py_eq l r | _ => false end
  | PTuple l => match o with PTuple r => seq_eq py_eq l r | _ => false end
  | PDict d | PMappingProxy d =>
      match mapping_entries o with
      | Some d' =>
          bool_decide (length d = length d')
          && forallb (fun kv : PyVal * PyVal =>
                        existsb (fun kv' : PyVal * PyVal =>
                                   same_hash kv.1 kv'.1 && py_eq kv.1 kv'.1
                                   && py_eq kv.2 kv'.2) d') d
      | None => false
      end
  | PSet l | PFrozenSet l =>
      match set_items o with
      | Some r =>
          bool_decide (length l = length r)
          && forallb (fun x => existsb (fun y => same_hash x y && py_eq x y) r) l
      | None => false
      end
  | PObject i => match o with PObject j => bool_decide (i = j) | _ => false end
  | PCty t => cty_eq t o
  end
with cty_eq (t : CtyType) (o : PyVal) {struct t} : bool :=
  match t with
  | CtyBool _ | CtyTuple _ | CtyDynamic =>
      (* CtyType.__eq__: isinstance(other, CtyType) *)
      isinstance o [c_CtyType]
  | CtyNumber value =>
      match o with PCty (CtyNumber value') => py_eq value value' | _ => false end
  | CtyString value =>
      match o with PCty (CtyString value') => py_eq value value' | _ => false end
  | CtyList element_type =>
      match o with
      | PCty (CtyList element_type') => cty_eq element_type (PCty element_type')
      | _ => false
      end
  | CtySet element_type value =>
      match o with
      | PCty (CtySet element_type' value') =>
          cty_eq element_type (PCty element_type')
          && bool_decide (length value = length value')
          && forallb (fun x => existsb (fun y => same_hash x y && py_eq x y)
                                 value') value
      | _ => false
      end
  | CtyMap key_type value_type metadata default _ =>
      match o with
      | PCty (CtyMap key_type' value_type' metadata' default' _) =>
          equal key_type key_type'
          && equal value_type value_type'
          && py_eq metadata metadata'
          && py_eq default default'
      | _ => false
      end
  | CtyObject attrs opt comp blk sens =>
      (* the generated __eq__: same class and equal field tuples *)
      match o with
      | PCty (CtyObject attrs' opt' comp' blk' sens') =>
          bool_decide (length attrs = length attrs')
          && forallb (fun nt : string * CtyType =>
                        match attr_lookup nt.1 attrs' with
                        | Some t' => cty_eq nt.2 (PCty t')
                        | None => false
                        end) attrs
          && bool_decide (opt = opt') && bool_decide (comp = comp')
          && bool_decide (blk = blk') && bool_decide (sens = sens')
      | _ => false
      end
  end
with equal (t other : CtyType) {struct t} : bool :=
  match t with
  | CtyBool _ => match other with CtyBool _ => true | _ => false end
  | CtyNumber _ => match other with CtyNumber _ => true | _ => false end
  | CtyString _ => match other with CtyString _ => true | _ => false end
  | CtyList element_type =>
      match other with
      | CtyList element_type' => equal element_type element_type'
      | _ => false
      end
  | CtySet element_type _ =>
      match other with
      | CtySet element_type' _ => equal element_type element_type'
      | _ => false
      end
  | CtyMap key_type value_type metadata default mutable =>
      match other with
      | CtyMap key_type' value_type' metadata' default' mutable' =>
          equal key_type key_type'
          && equal value_type value_type'
          && py_eq metadata metadata'
          && py_eq default default'
          && bool_decide (mutable = mutable')
      | _ => false
      end
  | CtyObject attrs opt comp blk sens =>
      match other with
      | CtyObject attrs' opt' comp' blk' sens' =>
          if negb (bool_decide (attribute_names attrs = attribute_names attrs'))
          then false
          else if negb (forallb (fun nt : string * CtyType =>
                                   match attr_lookup nt.1 attrs' with
                                   | Some other_type => equal nt.2 other_type
                                   | None => false
                                   end) attrs)
          then false
          else if negb (bool_decide (opt = opt')) then false
          else if negb (bool_decide (comp = comp')) then false
          else if negb (bool_decide (blk = blk')) then false
          else if negb (bool_decide (sens = sens')) then false
          else true
      | _ => false
      end
  | CtyTuple types =>
      match other with
      | CtyTuple types' => bool_decide (types = types')
      | _ => false
      end
  | CtyDynamic => match other with CtyDynamic => true | _ => false end
  end.

(** ** Containers *)

(** [key in d] and [d[key]]: the stored key is compared with the probe. *)
Definition same_key (stored probe : PyVal) : bool :=
  same_hash stored probe && py_eq stored probe.

Fixpoint dict_get (d : list (PyVal * PyVal)) (key : PyVal) : option PyVal :=
  match d with
  | [] => None
  | (k, v) :: d => if same_key k key then Some v else dict_get d key
  end.

(** [d[key] = v]: an existing key keeps its place. *)
Fixpoint dict_store (d : list (PyVal * PyVal)) (key v : PyVal)
  : list (PyVal * PyVal) :=
  match d with
  | [] => [(key, v)]
  | (k, w) :: d => if same_key k key then (k, v) :: d
                   else (k, w) :: dict_store d key v
  end.

Definition dict_set (d : list (PyVal * PyVal)) (key v : PyVal)
  : Result (list (PyVal * PyVal)) :=
  match py_hash key with
  | inl _ => Ok (dict_store d key v)
  | inr tn => raise TypeError (Unhashable tn)
  end.

(** [s.add(x)] on the contents of a set. *)
Definition set_store (s : list PyVal) (x : PyVal) : list PyVal :=
  if existsb (fun y => same_key y x) s then s else s ++ [x].

Definition set_add (s : list PyVal) (x : PyVal) : Result (list PyVal) :=
  match py_hash x with
  | inl _ => Ok (set_store s x)
  | inr tn => raise TypeError (Unhashable tn)
  end.

(** [hasattr(v, '__iter__')], and what iterating [v] yields: the keys of a
    mapping, the [value] of a [CtySet] (its [__iter__]). *)
Definition str_chars (s : string) : list PyVal :=
  (fun c => PStr (String c EmptyString)) <$> String.list_ascii_of_string s.

Definition iter_items (v : PyVal) : option (list PyVal) :=
  match v with
  | PList l | PTuple l | PSet l | PFrozenSet l => Some l
  | PDict d | PMappingProxy d => Some (d.*1)
  | PStr s => Some (str_chars s)
  | PBytes s => Some ((fun c => PInt (Z.of_nat (Ascii.nat_of_ascii c)))
                        <$> String.list_ascii_of_string s)
  | PCty (CtySet _ value) => Some value
  | _ => None
  end.

Definition has_iter (v : PyVal) : bool := bool_decide (is_Some (iter_items v)).

(** [bool(v)]. *)
Definition truthy (v : PyVal) : bool :=
  match v with
  | PNone => false
  | PBool b => b
  | PInt n => negb (bool_decide (n = 0))
  | PFloat bits => negb (bool_decide (bits = 0))
  | PStr s | PBytes s => negb (bool_decide (s = EmptyString))
  | PList l | PTuple l | PSet l | PFrozenSet l =>
      negb (bool_decide (length l = 0%nat))
  | PDict d | PMappingProxy d => negb (bool_decide (length d = 0%nat))
  | PObject _ | PCty _ => true
  end.

(** [t.value]: only the primitives and [CtySet] have the field. *)
Definition get_value (t : CtyType) : Result PyVal :=
  match t with
  | CtyBool value | CtyNumber value | CtyString value => Ok value
  | CtySet _ value => Ok (PSet value)
  | _ => raise AttributeError (NoAttribute (class_name (cty_class t)) "value")
  end.

(** ** [validate]

    Each class's method is a definition of its own; the calls it makes on
    member descriptors ([self.element_type.validate] and the like) are its
    function arguments, tied together by [validate] below. *)

Definition Validator := PyVal -> Result PyVal.

(** [CtyBool.validate]. *)
Definition CtyBool_validate (value : PyVal) : Result PyVal :=
  if isinstance value [c_bool] then Ok (PCty (CtyBool value))
  else raise ValidationError MustBeBoolean.

(** [CtyNumber.validate]; [evolve(self, value=value)] replaces the only
    field. *)
Definition CtyNumber_validate (value : PyVal) : Result PyVal :=
  if negb (isinstance value [c_int; c_float])
  then raise ValidationError MustBeNumber
  else Ok (PCty (CtyNumber value)).

(** [CtyString.validate]. *)
Definition CtyString_validate (value : PyVal) : Result PyVal :=
  if negb (isinstance value [c_str])
  then raise ValidationError MustBeString
  else Ok (PCty (CtyString value)).

(** The loop of [CtyList.validate], from index [i] on. *)
Fixpoint CtyList_validate_from (element_validate : Validator) (i : nat)
    (items validated : list PyVal) : Result (list PyVal) :=
  match items with
  | [] => Ok validated
  | item :: items =>
      match element_validate item with
      | Ok x => CtyList_validate_from element_validate (S i) items
                  (validated ++ [x])
      | Raise e => raise ValidationError (InvalidElementAtIndex i (exc_msg e))
      end
  end.

(** [CtyList.validate]. *)
Definition CtyList_validate (element_validate : Validator) (value : PyVal)
  : Result PyVal :=
  match value with
  | PNone => Ok (PList [])
  | PList items | PTuple items =>
      PList <$> CtyList_validate_from element_validate 0 items []
  | _ => raise PyviderError (ExpectedListOrTuple (type_name value))
  end.

(** [freeze_nested_sets] followed by [validated.add], the body of the
    [try] in [CtySet.validate]. *)
Definition CtySet_validate_item (element_validate : Validator)
    (validated : list PyVal) (item : PyVal) : Result (list PyVal) :=
  validated_item ←
    (if isinstance item [c_set; c_frozenset]
     then raise ValidationError NestedSets
     else element_validate item);
  set_add validated validated_item.

(** The loop of [CtySet.validate]: the set built so far and the errors
    collected so far. *)
Fixpoint CtySet_validate_from (element_validate : Validator) (i : nat)
    (items validated : list PyVal) (validation_errors : list (nat * PyVal * Msg))
  : list PyVal * list (nat * PyVal * Msg) :=
  match items with
  | [] => (validated, validation_errors)
  | item :: items =>
      match CtySet_validate_item element_validate validated item with
      | Ok validated' =>
          CtySet_validate_from element_validate (S i) items validated'
            validation_errors
      | Raise e =>
          CtySet_validate_from element_validate (S i) items validated
            (validation_errors ++ [(i, item, exc_msg e)])
      end
  end.

(** [CtySet.validate]. *)
Definition CtySet_validate (element_type : CtyType)
    (element_validate : Validator) (value : PyVal) : Result PyVal :=
  match value with
  | PNone => Ok (PCty (CtySet element_type []))
  | _ =>
      if negb (has_iter value) || isinstance value [c_str; c_bytes]
      then raise ValidationError (ExpectedIterable (type_name value))
      else if negb (truthy value) then Ok (PCty (CtySet element_type []))
      else
        match CtySet_validate_from element_validate 0
                (default [] (iter_items value)) [] [] with
        | (validated, []) => Ok (PCty (CtySet element_type validated))
        | (_, validation_errors) =>
            raise ValidationError (SetValidationFailed validation_errors)
        end
  end.

(** [CtyMap._wrap_value]: [nested_map_validate] is [nested_map.validate]
    and [value_type_validate] is [self.value_type.validate]. *)
Definition CtyMap_wrap_value (value_type : CtyType)
    (nested_map_validate value_type_validate : Validator)
  : PyVal -> Result PyVal :=
  fix wrap (value : PyVal) : Result PyVal :=
    match value with
    | PCty _ => Ok value
    | PList items =>
        PList <$> (fix each (l : list PyVal) : Result (list PyVal) :=
                     match l with
                     | [] => Ok []
                     | item :: l => x ← wrap item; xs ← each l; Ok (x :: xs)
                     end) items
    | PDict _ =>
        if isinstance (PCty value_type) [c_CtyMap]
        then nested_map_validate value
        else raise ValidationError
               (InvalidNestedDict (class_name (cty_class value_type)))
    | _ =>
        if isinstance value [c_str]
           && isinstance (PCty value_type) [c_CtyMap]
        then value_type_validate (PDict [(value, value)])
        else if isinstance value [c_bool]
                && isinstance (PCty value_type) [c_CtyBool]
        then Ok (PCty (CtyBool value))
        else if isinstance value [c_int; c_float]
                && isinstance (PCty value_type) [c_CtyNumber]
        then Ok (PCty (CtyNumber value))
        else if isinstance value [c_str]
                && isinstance (PCty value_type) [c_CtyString]
        then Ok (PCty (CtyString value))
        else raise ValidationError
               (InvalidMapValue (type_name value)
                  (class_name (cty_class value_type)))
    end.

(** [x.value if isinstance(x, CtyType) else x]. *)
Definition unwrap_value (x : PyVal) : Result PyVal :=
  match x with
  | PCty t => get_value t
  | _ => Ok x
  end.

(** The loop of [CtyMap.validate] over [value.items()]. *)
Fixpoint CtyMap_validate_from (key_validate wrap_value : Validator)
    (items validated : list (PyVal * PyVal)) : Result (list (PyVal * PyVal)) :=
  match items with
  | [] => Ok validated
  | (k, v) :: items =>
      validated_key ← key_validate k;
      validated_value ← wrap_value v;
      validated_value ←
        match validated_value with
        | PList l => PList <$> mapM unwrap_value l
        | _ => unwrap_value validated_value
        end;
      key ← unwrap_value validated_key;
      validated ← dict_set validated key validated_value;
      CtyMap_validate_from key_validate wrap_value items validated
  end.

(** [CtyMap.validate]. *)
Definition CtyMap_validate (key_validate wrap_value : Validator)
    (mutable : bool) (value : PyVal) : Result PyVal :=
  match value with
  | PDict items =>
      validated ← CtyMap_validate_from key_validate wrap_value items [];
      Ok (if negb mutable then PMappingProxy validated else PDict validated)
  | _ => raise ValidationError (ExpectedDict (type_name value))
  end.

(** [CtyObject.required_attributes], over the attribute names. *)
Definition required_names (names : list string)
    (optional_attributes computed_attributes : gset string) : gset string :=
  list_to_set
    (filter (fun name => (name ∉ optional_attributes)
                         ∧ (name ∉ computed_attributes)) names).

Definition required_attributes (t : CtyType) : gset string :=
  match t with
  | CtyObject attrs opt comp _ _ => required_names (attrs.*1) opt comp
  | _ => ∅
  end.

(** [', '.join(keys)]: the names, or the type found where a string was
    expected. *)
Fixpoint join_names (keys : list PyVal) : list string + string :=
  match keys with
  | [] => inl []
  | PStr s :: keys =>
      match join_names keys with
      | inl names => inl (s :: names)
      | inr tn => inr tn
      end
  | k :: _ => inr (type_name k)
  end.

(** The loop of [CtyObject.validate] over [attribute_types.items()]. *)
Fixpoint CtyObject_validate_from (attribute_types : list (string * Validator))
    (optional_attributes computed_attributes : gset string)
    (value validated : list (PyVal * PyVal)) : Result (list (PyVal * PyVal)) :=
  match attribute_types with
  | [] => Ok validated
  | (name, attr_validate) :: attribute_types =>
      match dict_get value (PStr name) with
      | None =>
          CtyObject_validate_from attribute_types optional_attributes
            computed_attributes value
            (if bool_decide (name ∈ optional_attributes)
                || bool_decide (name ∈ computed_attributes)
             then dict_store validated (PStr name) PNone
             else validated)
      | Some attr_value =>
          match attr_validate attr_value with
          | Ok validated_value =>
              CtyObject_validate_from attribute_types optional_attributes
                computed_attributes value
                (dict_store validated (PStr name) validated_value)
          | Raise e =>
              if is_ValidationError (exc_class e)
              then raise ValidationError
                     (InvalidValueForAttribute name (exc_msg e))
              else raise ValidationError
                     (ErrorValidatingAttribute name (exc_msg e))
          end
      end
  end.

(** [CtyObject.validate]. *)
Definition CtyObject_validate (attribute_types : list (string * Validator))
    (optional_attributes computed_attributes : gset string) (value : PyVal)
  : Result PyVal :=
  match value with
  | PNone => Ok PNone
  | PDict entries =>
      let names := attribute_types.*1 in
      let required_attrs :=
        required_names names optional_attributes computed_attributes in
      match list_find (fun name => dict_get entries (PStr name) = None)
              (elements required_attrs) with
      | Some (_, name) => raise ValidationError (MissingRequired name)
      | None =>
          let unknown_attrs :=
            filter (fun k => ¬ (existsb (fun n => same_key (PStr n) k) names))
              (entries.*1) in
          match unknown_attrs with
          | _ :: _ =>
              match join_names unknown_attrs with
              | inl unknown => raise ValidationError (UnknownAttributes unknown)
              | inr tn => raise TypeError (JoinExpectedStr tn)
              end
          | [] =>
              PDict <$> CtyObject_validate_from attribute_types
                          optional_attributes computed_attributes entries []
          end
      end
  | _ => raise ValidationError (ExpectedDictionary (type_name value) value)
  end.

(** The loop of [CtyTuple.validate] over [zip(value, self.types)]. *)
Fixpoint CtyTuple_validate_from (i : nat) (value : list PyVal)
    (types : list PyClass) : Result unit :=
  match value, types with
  | item :: value, expected_type :: types =>
      if negb (isinstance item [expected_type])
      then raise ValidationError
             (ElementExpectedType i (class_name expected_type)
                (type_name item) item)
      else CtyTuple_validate_from (S i) value types
  | _, _ => Ok ()
  end.

(** [CtyTuple.validate]; it returns nothing. *)
Definition CtyTuple_validate (types : list PyClass) (value : PyVal)
  : Result PyVal :=
  match value with
  | PTuple items =>
      if negb (bool_decide (length items = length types))
      then raise ValidationError
             (ExpectedElements (length types) (length items) value)
      else _ ← CtyTuple_validate_from 0 items types; Ok PNone
  | _ => raise ValidationError (ExpectedTuple (type_name value) value)
  end.

(** [CtyDynamic.validate]; it returns nothing. *)
Definition CtyDynamic_validate (value : PyVal) : Result PyVal :=
  if isinstance value
       [c_dict; c_list; c_int; c_float; c_bool; c_str; c_NoneType]
  then Ok PNone
  else raise ValidationError UnsupportedDynamic.

(** [t.validate(value)].  [validate_map key_validate value_type mutable] is
    the [validate] of a map with that key validation: [_wrap_value] builds
    such a map around [self.key_type], [self.value_type.value_type] and
    [self.mutable] for a nested dictionary.  [_wrap_value] calls on the
    nested map and on [self.value_type] only when the value type is a map,
    so the calls are given for that case. *)
Fixpoint validate (t : CtyType) : Validator :=
  match t with
  | CtyBool _ => CtyBool_validate
  | CtyNumber _ => CtyNumber_validate
  | CtyString _ => CtyString_validate
  | CtyList element_type => CtyList_validate (validate element_type)
  | CtySet element_type _ =>
      CtySet_validate element_type (validate element_type)
  | CtyMap key_type value_type _ _ mutable =>
      validate_map (validate key_type) value_type mutable
  | CtyObject attrs opt comp _ _ =>
      CtyObject_validate
        (map (fun nt : string * CtyType => (nt.1, validate nt.2)) attrs)
        opt comp
  | CtyTuple types => CtyTuple_validate types
  | CtyDynamic => CtyDynamic_validate
  end
with validate_map (key_validate : Validator) (value_type : CtyType)
    (mutable : bool) {struct value_type} : Validator :=
  CtyMap_validate key_validate
    (CtyMap_wrap_value value_type
       (match value_type with
        | CtyMap _ value_type' _ _ _ =>
            validate_map key_validate value_type' mutable
        | _ => fun _ => raise ValidationError (InvalidNestedDict EmptyString)
        end)
       (match value_type with
        | CtyMap key_type' value_type' _ _ mutable' =>
            validate_map (validate key_type') value_type' mutable'
        | _ => fun _ => raise ValidationError (InvalidNestedDict EmptyString)
        end))
    mutable.

(** ** [usable_as] *)

(** [CtyList.usable_as]: after the [isinstance] test it reads [self.types],
    a field [CtyList] does not have. *)
Definition CtyList_usable_as (other : CtyType) : Result bool :=
  match other with
  | CtyList _ => raise AttributeError (NoAttribute "CtyList" "types")
  | _ => Ok false
  end.

(** [all(issubclass(s, o) for s, o in zip(types, types'))]. *)
Fixpoint all_issubclass (types types' : list PyClass) : bool :=
  match types, types' with
  | self_type :: types, other_type :: types' =>
      issubclass self_type other_type && all_issubclass types types'
  | _, _ => true
  end.

(** [CtyObject.usable_as], for an [other] that is a [CtyObject]. *)
Definition CtyObject_usable_as
    (attrs : list (string * CtyType)) (self_required : gset string)
    (attrs' : list (string * CtyType)) (other_required : gset string) : bool :=
  let other_attrs := attribute_names attrs' in
  let self_attrs := attribute_names attrs in
  let missing_attrs := other_attrs ∖ self_attrs in
  if negb (bool_decide (missing_attrs = ∅)) then false
  else if negb (forallb (fun name =>
                           match attr_lookup name attrs,
                                 attr_lookup name attrs' with
                           | Some self_type, Some other_type =>
                               equal self_type other_type
                           | _, _ => false
                           end) (elements other_attrs))
  then false
  else if negb (bool_decide (other_required ⊆ self_required)) then false
  else true.

(** [t.usable_as(other)]. *)
Fixpoint usable_as (t other : CtyType) : Result bool :=
  match t with
  | CtyBool _ => Ok (bool_decide (cty_class other = c_CtyBool))
  | CtyNumber _ => Ok (bool_decide (cty_class other = c_CtyNumber))
  | CtyString _ => Ok (bool_decide (cty_class other = c_CtyString))
  | CtyList _ => CtyList_usable_as other
  | CtySet element_type _ =>
      match other with
      | CtySet element_type' _ => usable_as element_type element_type'
      | _ => Ok false
      end
  | CtyMap _ value_type _ _ _ =>
      match other with
      | CtyMap _ value_type' _ _ _ => usable_as value_type value_type'
      | _ => Ok false
      end
  | CtyObject attrs _ _ _ _ =>
      match other with
      | CtyObject attrs' _ _ _ _ =>
          Ok (CtyObject_usable_as attrs (required_attributes t)
                attrs' (required_attributes other))
      | _ => Ok false
      end
  | CtyTuple types =>
      match other with
      | CtyTuple types' => Ok (all_issubclass types types')
      | _ => Ok false
      end
  | CtyDynamic => Ok (bool_decide (cty_class other = c_CtyDynamic))
  end.

(** ** Construction and updates *)

(** [CtyObject(...)]: the checks of [__attrs_post_init__].  The arguments
    are typed, so the first two checks (a dictionary, of descriptors)
    pass. *)
Definition CtyObject_attrs_post_init (attribute_types : list (string * CtyType))
    (optional_attributes computed_attributes
     block_attributes sensitive_attributes : gset string) : Result CtyType :=
  let names := attribute_names attribute_types in
  let unknown_optional := optional_attributes ∖ names in
  if negb (bool_decide (unknown_optional = ∅))
  then raise AttributeValidationError (UnknownOptional (elements unknown_optional))
  else
  let unknown_computed := computed_attributes ∖ names in
  if negb (bool_decide (unknown_computed = ∅))
  then raise AttributeValidationError (UnknownComputed (elements unknown_computed))
  else
  let unknown_blocks := block_attributes ∖ names in
  if negb (bool_decide (unknown_blocks = ∅))
  then raise AttributeValidationError (UnknownBlock (elements unknown_blocks))
  else
  let unknown_sensitive := sensitive_attributes ∖ names in
  if negb (bool_decide (unknown_sensitive = ∅))
  then raise AttributeValidationError (UnknownSensitive (elements unknown_sensitive))
  else Ok (CtyObject attribute_types optional_attributes computed_attributes
             block_attributes sensitive_attributes).

(** The set object held in [self.value] is the state of a [CtySet]: a
    method takes its contents and gives back its outcome with the contents
    afterwards. *)
Definition SetMethod (A : Type) := list PyVal -> Result A * list PyVal.

(** [self.value | {element}]; the set display hashes [element]. *)
Definition set_union_single (value : list PyVal) (element : PyVal)
  : Result (list PyVal) :=
  set_add value element.

(** [CtySet.add]. *)
Definition CtySet_add (element_type : CtyType) (element : PyVal)
  : SetMethod PyVal := fun value =>
  match set_union_single value element with
  | Raise e => (Raise e, value)
  | Ok candidate =>
      match validate (CtySet element_type value) (PSet candidate) with
      | Raise e =>
          if is_ValidationError (exc_class e)
          then (raise ValidationError (FailedToAdd (exc_msg e)), value)
          else (Raise e, value)
      | Ok _ => (Ok PNone, set_store value element)
      end
  end.

(** [CtySet.remove]. *)
Definition CtySet_remove (element_type : CtyType) (item : PyVal)
  : SetMethod PyVal := fun value =>
  match validate element_type item with
  | Ok validated_item =>
      let new_set := filter (fun x => ¬ (py_eq x validated_item)) value in
      (Ok (PCty (CtySet element_type new_set)), value)
  | Raise e => (raise ValidationError (FailedToRemove (exc_msg e)), value)
  end.

(** ** Induction over values and descriptors *)

Section Induction.
  Variables (P : PyVal -> Prop) (Q : CtyType -> Prop).

  Hypothesis case_scalar : forall v,
    match v with
    | PNone | PBool _ | PInt _ | PFloat _ | PStr _ | PBytes _ | PObject _ => P v
    | _ => True
    end.
  Hypothesis case_PList : forall l, Forall P l -> P (PList l).
  Hypothesis case_PTuple : forall l, Forall P l -> P (PTuple l).
  Hypothesis case_PSet : forall l, Forall P l -> P (PSet l).
  Hypothesis case_PFrozenSet : forall l, Forall P l -> P (PFrozenSet l).
  Hypothesis case_PDict : forall d,
    Forall (fun kv => P kv.1 /\ P kv.2) d -> P (PDict d).
  Hypothesis case_PMappingProxy : forall d,
    Forall (fun kv => P kv.1 /\ P kv.2) d -> P (PMappingProxy d).
  Hypothesis case_PCty : forall t, Q t -> P (PCty t).
  Hypothesis case_CtyBool : forall v, P v -> Q (CtyBool v).
  Hypothesis case_CtyNumber : forall v, P v -> Q (CtyNumber v).
  Hypothesis case_CtyString : forall v, P v -> Q (CtyString v).
  Hypothesis case_CtyList : forall e, Q e -> Q (CtyList e).
  Hypothesis case_CtySet : forall e l, Q e -> Forall P l -> Q (CtySet e l).
  Hypothesis case_CtyMap : forall k v md d m,
    Q k -> Q v -> P md -> P d -> Q (CtyMap k v md d m).
  Hypothesis case_CtyObject : forall attrs o c b s,
    Forall (fun nt => Q nt.2) attrs -> Q (CtyObject attrs o c b s).
  Hypothesis case_CtyTuple : forall types, Q (CtyTuple types).
  Hypothesis case_CtyDynamic : Q CtyDynamic.

Fixpoint PyVal_induction (v : PyVal) : P v :=
  let each := fix each (l : list PyVal) : Forall P l :=
    match l with
    | [] => Forall_nil_2 P
    | x :: l => Forall_cons_2 P x l (PyVal_induction x) (each l)
    end in
  let each2 := fix each2 (d : list (PyVal * PyVal))
      : Forall (fun kv => P kv.1 /\ P kv.2) d :=
    match d with
    | [] => Forall_nil_2 _
    | kv :: d =>
        Forall_cons_2 (fun kv => P kv.1 /\ P kv.2) kv d
          (conj (PyVal_induction kv.1) (PyVal_induction kv.2)) (each2 d)
    end in
  match v with
  | PNone => case_scalar PNone
  | PBool b => case_scalar (PBool b)
  | PInt n => case_scalar (PInt n)
  | PFloat x => case_scalar (PFloat x)
  | PStr s => case_scalar (PStr s)
  | PBytes s => case_scalar (PBytes s)
  | PObject i => case_scalar (PObject i)
  | PList l => case_PList l (each l)
  | PTuple l => case_PTuple l (each l)
  | PSet l => case_PSet l (each l)
  | PFrozenSet l => case_PFrozenSet l (each l)
  | PDict d => case_PDict d (each2 d)
  | PMappingProxy d => case_PMappingProxy d (each2 d)
  | PCty t => case_PCty t (CtyType_induction t)
  end
with CtyType_induction (t : CtyType) : Q t :=
  match t with
  | CtyBool v => case_CtyBool v (PyVal_induction v)
  | CtyNumber v => case_CtyNumber v (PyVal_induction v)
  | CtyString v => case_CtyString v (PyVal_induction v)
  | CtyList e => case_CtyList e (CtyType_induction e)
  | CtySet e l =>
      case_CtySet e l (CtyType_induction e)
        ((fix each (l : list PyVal) : Forall P l :=
            match l with
            | [] => Forall_nil_2 P
            | x :: l => Forall_cons_2 P x l (PyVal_induction x) (each l)
            end) l)
  | CtyMap k v md d m =>
      case_CtyMap k v md d m (CtyType_induction k) (CtyType_induction v)
        (PyVal_induction md) (PyVal_induction d)
  | CtyObject attrs o c b s =>
      case_CtyObject attrs o c b s
        ((fix each (l : list (string * CtyType))
            : Forall (fun nt => Q nt.2) l :=
            match l with
            | [] => Forall_nil_2 _
            | nt :: l =>
                Forall_cons_2 (fun nt => Q nt.2) nt l
                  (CtyType_induction nt.2) (each l)
            end) attrs)
  | CtyTuple types => case_CtyTuple types
  | CtyDynamic => case_CtyDynamic
  end.

Definition mutual_induction : (forall v, P v) /\ (forall t, Q t) :=
  conj PyVal_induction CtyType_induction.
End Induction.

(** ** Values that can exist

    A dictionary key and a set element have been hashed, and the keys of
    [attribute_types] are distinct. *)

Definition hashable (v : PyVal) : bool :=
  match py_hash v with inl _ => true | inr _ => false end.

Fixpoint wf_val (v : PyVal) : bool :=
  match v with
  | PList l | PTuple l => forallb wf_val l
  | PSet l | PFrozenSet l => forallb (fun x => hashable x && wf_val x) l
  | PDict d | PMappingProxy d =>
      forallb (fun kv : PyVal * PyVal =>
                 hashable kv.1 && wf_val kv.1 && wf_val kv.2) d
  | PCty t => wf_cty t
  | _ => true
  end
with wf_cty (t : CtyType) : bool :=
  match t with
  | CtyBool v | CtyNumber v | CtyString v => wf_val v
  | CtyList e => wf_cty e
  | CtySet e l => wf_cty e && forallb (fun x => hashable x && wf_val x) l
  | CtyMap k v md d _ => wf_cty k && wf_cty v && wf_val md && wf_val d
  | CtyObject attrs _ _ _ _ =>
      bool_decide (NoDup (attrs.*1))
      && forallb (fun nt : string * CtyType => wf_cty nt.2) attrs
  | CtyTuple _ | CtyDynamic => true
  end.

(** ** The specification's notions *)

(** [CtyBool()], [CtyNumber()] and [CtyString()], with the default of their
    [value] field. *)
Definition tBool : CtyType := CtyBool (PBool false).
Definition tNumber : CtyType := CtyNumber (PFloat 0).
Definition tString : CtyType := CtyString (PStr EmptyString).

Definition is_primitive (t : CtyType) : bool :=
  match t with
  | CtyBool _ | CtyNumber _ | CtyString _ => true
  | _ => false
  end.

(** "[v]'s native kind exactly matches P": boolean for Bool,
    integer-or-floating for Number, text for String. *)
Definition native_kind_matches (t : CtyType) (v : PyVal) : bool :=
  match t with
  | CtyBool _ => bool_decide (class_of v = c_bool)
  | CtyNumber _ =>
      bool_decide (class_of v = c_int) || bool_decide (class_of v = c_float)
  | CtyString _ => bool_decide (class_of v = c_str)
  | _ => false
  end.

(** The kind-mismatch message of a primitive. *)
Definition kind_mismatch (t : CtyType) : Msg :=
  match t with
  | CtyBool _ => MustBeBoolean
  | CtyNumber _ => MustBeNumber
  | _ => MustBeString
  end.

(** "T.validate(T.validate(v)) succeeds and equals T.validate(v)". *)
Definition validate_idempotent (t : CtyType) (v : PyVal) : Prop :=
  forall r, validate t v = Ok r -> validate t r = Ok r.

(** The indices at which the element descriptor rejects an element. *)
Fixpoint failing_indices_from (element_validate : Validator) (i : nat)
    (items : list PyVal) : list nat :=
  match items with
  | [] => []
  | item :: items =>
      (if succeeds (element_validate item) then [] else [i])
      ++ failing_indices_from element_validate (S i) items
  end.

(** The element indices a collection error names. *)
Definition reported_indices (m : Msg) : list nat :=
  match m with
  | InvalidElementAtIndex i _ => [i]
  | SetValidationFailed errs => errs.*1.*1
  | _ => []
  end.

(** "All failing indices are reported in one aggregated error". *)
Definition reports_all_failures (element_type : CtyType)
    (items : list PyVal) : Prop :=
  exists e, validate (CtyList element_type) (PList items) = Raise e
            /\ reported_indices (exc_msg e)
               = failing_indices_from (validate element_type) 0 items.

(** "[s] is promoted to the single-entry map keyed by itself": the
    validated mapping binds [k] to the mapping [{s: s}]. *)
Definition promotes_string (M : CtyType) (k : PyVal) (s : string) : Prop :=
  exists r entries p,
    validate M (PDict [(k, PStr s)]) = Ok r
    /\ mapping_entries r = Some entries
    /\ dict_get entries k = Some p
    /\ mapping_entries p = Some [(PStr s, PStr s)].

(** The container [CtyMap.validate] returns: read-only unless mutable. *)
Definition map_result (mutable : bool) (validated : list (PyVal * PyVal))
  : PyVal :=
  if negb mutable then PMappingProxy validated else PDict validated.

(** ** Element access and the Object builders *)

(** What [CtyList.element_at] raises: a [ValidationError] "Expected list,
    got {tn}", or an [IndexError] "CtyList index {index} out of range for
    list of length {len}". *)
Inductive ElementAtError :=
| ElementAtExpectedList (tn : string)
| ElementAtIndexError (index : Z) (len : nat).

(** [l[index]]: a negative index counts from the end. *)
Definition list_index (l : list PyVal) (index : Z) : option PyVal :=
  let n := Z.of_nat (length l) in
  if bool_decide (0 <= index < n) then l !! Z.to_nat index
  else if bool_decide (- n <= index < 0) then l !! Z.to_nat (n + index)
  else None.

(** [CtyList.element_at]. *)
Definition CtyList_element_at (value : PyVal) (index : Z)
  : PyVal + ElementAtError :=
  match value with
  | PList l =>
      match list_index l index with
      | Some x => inl x
      | None => inr (ElementAtIndexError index (length l))
      end
  | _ => inr (ElementAtExpectedList (type_name value))
  end.

(** [CtyObject.has_attribute]. *)
Definition CtyObject_has_attribute (attribute_types : list (string * CtyType))
    (name : string) : bool :=
  bool_decide (is_Some (attr_lookup name attribute_types)).

(** What [CtyObject.get_attribute] raises: a [ValidationError] "Expected a
    dictionary, got {tn}: {v}", or an [AttributeValidationError] "Unknown
    attribute: {name}". *)
Inductive GetAttributeError :=
| GetAttributeExpectedDictionary (tn : string) (v : PyVal)
| GetAttributeUnknown (name : string).

(** [CtyObject.get_attribute]; [value.get(name)] is [None] for a missing
    key. *)
Definition CtyObject_get_attribute (attribute_types : list (string * CtyType))
    (value : PyVal) (name : string) : PyVal + GetAttributeError :=
  match value with
  | PDict entries =>
      if negb (CtyObject_has_attribute attribute_types name)
      then inr (GetAttributeUnknown name)
      else inl (default PNone (dict_get entries (PStr name)))
  | _ => inr (GetAttributeExpectedDictionary (type_name value) value)
  end.

(** What a builder raises: a [SchemaValidationError] "Unknown attributes:
    ...", "Attributes already required: ..." or "Attribute already exists:
    {name}", or what constructing the new object raises. *)
Inductive BuilderError :=
| BuilderUnknownAttributes (names : list string)
| BuilderAlreadyRequired (names : list string)
| BuilderAlreadyExists (name : string)
| BuilderConstruction (e : PyExc).

(** The [CtyObject(...)] call that ends every builder. *)
Definition CtyObject_build (attribute_types : list (string * CtyType))
    (optional_attributes computed_attributes
     block_attributes sensitive_attributes : gset string)
  : CtyType + BuilderError :=
  match CtyObject_attrs_post_init attribute_types optional_attributes
          computed_attributes block_attributes sensitive_attributes with
  | Ok t => inl t
  | Raise e => inr (BuilderConstruction e)
  end.

(** The test that opens the [with_..._attributes] builders:
    [set(names) - set(self.attribute_types)]. *)
Definition unknown_names (attribute_types : list (string * CtyType))
    (names : list string) : gset string :=
  list_to_set names ∖ attribute_names attribute_types.

(** [CtyObject.with_optional_attributes]. *)
Definition CtyObject_with_optional_attributes
    (attribute_types : list (string * CtyType))
    (optional_attributes computed_attributes
     block_attributes sensitive_attributes : gset string)
    (names : list string) : CtyType + BuilderError :=
  let unknown := unknown_names attribute_types names in
  if negb (bool_decide (unknown = ∅))
  then inr (BuilderUnknownAttributes (elements unknown))
  else
    let new_optional := optional_attributes ∪ list_to_set names in
    CtyObject_build attribute_types new_optional computed_attributes
      block_attributes sensitive_attributes.

(** [CtyObject.with_required_attributes]. *)
Definition CtyObject_with_required_attributes
    (attribute_types : list (string * CtyType))
    (optional_attributes computed_attributes
     block_attributes sensitive_attributes : gset string)
    (names : list string) : CtyType + BuilderError :=
  let unknown := unknown_names attribute_types names in
  if negb (bool_decide (unknown = ∅))
  then inr (BuilderUnknownAttributes (elements unknown))
  else
    let not_optional := list_to_set names ∖ optional_attributes in
    if negb (bool_decide (not_optional = ∅))
    then inr (BuilderAlreadyRequired (elements not_optional))
    else
      let new_optional := optional_attributes ∖ list_to_set names in
      CtyObject_build attribute_types new_optional computed_attributes
        block_attributes sensitive_attributes.

(** [CtyObject.with_computed_attributes]. *)
Definition CtyObject_with_computed_attributes
    (attribute_types : list (string * CtyType))
    (optional_attributes computed_attributes
     block_attributes sensitive_attributes : gset string)
    (names : list string) : CtyType + BuilderError :=
  let unknown := unknown_names attribute_types names in
  if negb (bool_decide (unknown = ∅))
  then inr (BuilderUnknownAttributes (elements unknown))
  else
    let new_computed := computed_attributes ∪ list_to_set names in
    CtyObject_build attribute_types optional_attributes new_computed
      block_attributes sensitive_attributes.

(** [CtyObject.with_block_attributes]. *)
Definition CtyObject_with_block_attributes
    (attribute_types : list (string * CtyType))
    (optional_attributes computed_attributes
     block_attributes sensitive_attributes : gset string)
    (names : list string) : CtyType + BuilderError :=
  let unknown := unknown_names attribute_types names in
  if negb (bool_decide (unknown = ∅))
  then inr (BuilderUnknownAttributes (elements unknown))
  else
    let new_blocks := block_attributes ∪ list_to_set names in
    CtyObject_build attribute_types optional_attributes computed_attributes
      new_blocks sensitive_attributes.

(** [CtyObject.with_sensitive_attributes]. *)
Definition CtyObject_with_sensitive_attributes
    (attribute_types : list (string * CtyType))
    (optional_attributes computed_attributes
     block_attributes sensitive_attributes : gset string)
    (names : list string) : CtyType + BuilderError :=
  let unknown := unknown_names attribute_types names in
  if negb (bool_decide (unknown = ∅))
  then inr (BuilderUnknownAttributes (elements unknown))
  else
    let new_sensitive := sensitive_attributes ∪ list_to_set names in
    CtyObject_build attribute_types optional_attributes computed_attributes
      block_attributes new_sensitive.

(** [CtyObject.with_attribute]: the new entry goes last in the copied
    dictionary. *)
Definition CtyObject_with_attribute
    (attribute_types : list (string * CtyType))
    (optional_attributes computed_attributes
     block_attributes sensitive_attributes : gset string)
    (name : string) (type_ : CtyType) (optional computed block sensitive : bool)
  : CtyType + BuilderError :=
  if bool_decide (is_Some (attr_lookup name attribute_types))
  then inr (BuilderAlreadyExists name)
  else
    let new_attrs := (attribute_types ++ [(name, type_)])%list in
    let new_optional :=
      if optional then optional_attributes ∪ {[name]}
      else optional_attributes in
    let new_computed :=
      if computed then computed_attributes ∪ {[name]}
      else computed_attributes in
    let new_blocks :=
      if block then block_attributes ∪ {[name]} else block_attributes in
    let new_sensitive :=
      if sensitive then sensitive_attributes ∪ {[name]}
      else sensitive_attributes in
    CtyObject_build new_attrs new_optional new_computed new_blocks
      new_sensitive.

(** The invariant construction establishes: the four classification sets
    name attributes. *)
Definition classified (t : CtyType) : Prop :=
  match t with
  | CtyObject attrs opt comp blk sens =>
      opt ∪ comp ∪ blk ∪ sens ⊆ attribute_names attrs
  | _ => True
  end.


(** Whether the body of the [try] in [CtySet.validate] raises on [item];
    what the set holds so far plays no part. *)
Definition CtySet_item_fails (element_validate : Validator) (item : PyVal)
  : bool :=
  negb (succeeds (CtySet_validate_item element_validate [] item)).

(** A dictionary with string keys, as a value. *)
Definition str_dict (kvs : list (string * PyVal)) : list (PyVal * PyVal) :=
  (fun kv : string * PyVal => (PStr kv.1, kv.2)) <$> kvs.

(** The values [_wrap_value] has no branch for when the value type is not
    a primitive or a map: neither a descriptor instance, a list nor a
    dictionary. *)
Definition is_scalar (v : PyVal) : bool :=
  match v with
  | PCty _ | PList _ | PDict _ => false
  | _ => true
  end.

(** The Object of the specification's example: [name] a String, [count] an
    optional Number. *)
Definition name_count_attrs : list (string * CtyType) :=
  [("name", tString); ("count", tNumber)].

(** * Properties *)

(** [validate] of a map is [validate_map] at the map's own fields. *)
Lemma validate_CtyMap key_type value_type metadata default mutable :
  validate (CtyMap key_type value_type metadata default mutable)
  = validate_map (validate key_type) value_type mutable.
Proof. reflexivity. Qed.

Lemma validate_map_unfold key_validate value_type mutable :
  validate_map key_validate value_type mutable
  = CtyMap_validate key_validate
      (CtyMap_wrap_value value_type
         (match value_type with
          | CtyMap _ value_type' _ _ _ =>
              validate_map key_validate value_type' mutable
          | _ => fun _ => raise ValidationError (InvalidNestedDict EmptyString)
          end)
         (match value_type with
          | CtyMap key_type' value_type' _ _ mutable' =>
              validate_map (validate key_type') value_type' mutable'
          | _ => fun _ => raise ValidationError (InvalidNestedDict EmptyString)
          end))
      mutable.
Proof. by destruct value_type. Qed.

(** ** Reflexivity of [==] and of [equal] *)

Lemma HashVal_eqb_refl : forall h, HashVal_eqb h h = true.
Proof.
  fix IH 1.
  intros [ | n | n | s | s | hs | | i | c]; simpl;
    try reflexivity; try (apply bool_decide_eq_true_2; reflexivity).
  induction hs as [|h hs IHhs]; simpl; [reflexivity|].
  rewrite IH, IHhs. reflexivity.
Qed.

Lemma same_hash_refl v : hashable v = true -> same_hash v v = true.
Proof.
  unfold hashable, same_hash. destruct (py_hash v); [|discriminate].
  intros _. apply HashVal_eqb_refl.
Qed.

Lemma attr_lookup_NoDup name t attrs :
  NoDup (attrs.*1) -> (name, t) ∈ attrs -> attr_lookup name attrs = Some t.
Proof.
  induction attrs as [|[n u] attrs IH]; simpl; intros Hnd Hin.
  - by apply elem_of_nil in Hin.
  - apply NoDup_cons in Hnd as [Hn Hnd].
    apply elem_of_cons in Hin as [Heq|Hin].
    + inversion Heq; subst. by rewrite bool_decide_eq_true_2.
    + rewrite bool_decide_eq_false_2; [by apply IH|].
      intros ->. apply Hn. apply list_elem_of_fmap. by exists (name, t).
Qed.

Lemma seq_eq_refl (l : list PyVal) :
  Forall (fun v => wf_val v = true -> py_eq v v = true) l ->
  forallb wf_val l = true -> seq_eq py_eq l l = true.
Proof.
  induction 1 as [|v l Hv _ IH]; simpl; [done|].
  intros [Hwf Hl]%andb_prop. by rewrite Hv, IH.
Qed.

Lemma members_eq_refl (l : list PyVal) :
  Forall (fun v => wf_val v = true -> py_eq v v = true) l ->
  forallb (fun x => hashable x && wf_val x) l = true ->
  forallb (fun x => existsb (fun y => same_hash x y && py_eq x y) l) l = true.
Proof.
  intros HP Hwf. apply forallb_forall. intros x Hx.
  apply existsb_exists. exists x. split; [done|].
  rewrite forallb_forall in Hwf. specialize (Hwf x Hx).
  apply andb_prop in Hwf as [Hh Hw].
  rewrite Forall_forall in HP.
  rewrite same_hash_refl by done.
  rewrite HP; [done| |done]. by apply list_elem_of_In.
Qed.

Lemma entries_eq_refl (d : list (PyVal * PyVal)) :
  Forall (fun kv => (wf_val kv.1 = true -> py_eq kv.1 kv.1 = true)
                    /\ (wf_val kv.2 = true -> py_eq kv.2 kv.2 = true)) d ->
  forallb (fun kv : PyVal * PyVal =>
             hashable kv.1 && wf_val kv.1 && wf_val kv.2) d = true ->
  forallb (fun kv : PyVal * PyVal =>
             existsb (fun kv' : PyVal * PyVal =>
                        same_hash kv.1 kv'.1 && py_eq kv.1 kv'.1
                        && py_eq kv.2 kv'.2) d) d = true.
Proof.
  intros HP Hwf. apply forallb_forall. intros kv Hkv.
  apply existsb_exists. exists kv. split; [done|].
  rewrite forallb_forall in Hwf. specialize (Hwf kv Hkv).
  apply andb_prop in Hwf as [[Hh H1]%andb_prop H2].
  rewrite Forall_forall in HP.
  destruct (HP kv) as [E1 E2]; [by apply list_elem_of_In|].
  by rewrite same_hash_refl, E1, E2.
Qed.

(** On values that can exist, [==] is reflexive, and a descriptor is
    [equal] to itself. *)
Lemma py_eq_equal_refl :
  (forall v, wf_val v = true -> py_eq v v = true)
  /\ (forall t, wf_cty t = true ->
        cty_eq t (PCty t) = true /\ equal t t = true).
Proof.
  apply mutual_induction; simpl.
  - intros []; simpl; try done; intros _;
      try (by apply bool_decide_eq_true_2); by destruct b.
  - intros l Hl Hwf. by apply seq_eq_refl.
  - intros l Hl Hwf. by apply seq_eq_refl.
  - intros l Hl Hwf. rewrite bool_decide_eq_true_2 by done.
    by apply members_eq_refl.
  - intros l Hl Hwf. rewrite bool_decide_eq_true_2 by done.
    by apply members_eq_refl.
  - intros d Hd Hwf. rewrite bool_decide_eq_true_2 by done.
    by apply entries_eq_refl.
  - intros d Hd Hwf. rewrite bool_decide_eq_true_2 by done.
    by apply entries_eq_refl.
  - intros t Ht Hwf. by apply Ht.
  - done.
  - intros v Hv Hwf. by split; [apply Hv|].
  - intros v Hv Hwf. by split; [apply Hv|].
  - intros e He Hwf. by apply He.
  - intros e l He Hl [Hwe Hwl]%andb_prop. destruct (He Hwe) as [E1 E2].
    split; [|done]. rewrite E1, bool_decide_eq_true_2 by done.
    by apply members_eq_refl.
  - intros k v md d m Hk Hv Hmd Hd
      [[[Wk Wv]%andb_prop Wmd]%andb_prop Wd]%andb_prop.
    destruct (Hk Wk) as [_ Ek]. destruct (Hv Wv) as [_ Ev].
    rewrite Ek, Ev, (Hmd Wmd), (Hd Wd), bool_decide_eq_true_2 by done.
    done.
  - intros attrs o c b s Hattrs [Hnd Hwf]%andb_prop.
    apply bool_decide_eq_true_1 in Hnd.
    rewrite !bool_decide_eq_true_2 by done. simpl.
    assert (forall nt, nt ∈ attrs ->
              attr_lookup nt.1 attrs = Some nt.2
              /\ cty_eq nt.2 (PCty nt.2) = true
              /\ equal nt.2 nt.2 = true) as Hall.
    { intros [n u] Hin. split.
      * by apply attr_lookup_NoDup.
      * rewrite Forall_forall in Hattrs. apply (Hattrs (n, u) Hin).
        rewrite forallb_forall in Hwf. apply (Hwf (n, u)).
        by apply list_elem_of_In. }
    split.
    + rewrite !andb_true_r.
      apply forallb_forall. intros nt Hin%list_elem_of_In.
      destruct (Hall nt Hin) as (-> & E & _). done.
    + replace (forallb _ attrs) with true; [done|].
      symmetry. apply forallb_forall. intros nt Hin%list_elem_of_In.
      destruct (Hall nt Hin) as (-> & _ & E). done.
  - intros types _. by rewrite bool_decide_eq_true_2.
  - done.
Qed.

Lemma equal_refl t : wf_cty t = true -> equal t t = true.
Proof. intros Hwf. by apply py_eq_equal_refl. Qed.

(** ** [CtyObject.usable_as] *)

Lemma attr_lookup_is_Some name attrs :
  is_Some (attr_lookup name attrs) <-> name ∈ attribute_names attrs.
Proof.
  unfold attribute_names.
  induction attrs as [|[n t] attrs IH]; simpl.
  - split; [by intros [? ?]|set_solver].
  - case_bool_decide as Hn; subst.
    + split; [set_solver|by eexists].
    + rewrite IH. set_solver.
Qed.

Lemma attr_lookup_None name attrs :
  attr_lookup name attrs = None <-> name ∉ attribute_names attrs.
Proof.
  rewrite <- attr_lookup_is_Some, eq_None_not_Some. done.
Qed.

(** The three tests of [CtyObject.usable_as], one by one. *)
Lemma CtyObject_usable_as_true attrs req attrs' req' :
  CtyObject_usable_as attrs req attrs' req' = true <->
  attribute_names attrs' ⊆ attribute_names attrs
  /\ (forall name self_type other_type,
        attr_lookup name attrs = Some self_type ->
        attr_lookup name attrs' = Some other_type ->
        equal self_type other_type = true)
  /\ req' ⊆ req.
Proof.
  unfold CtyObject_usable_as.
  case_bool_decide as Hmissing; simpl.
  2:{ split; [done|]. intros (Hsub & _). destruct Hmissing. set_solver. }
  assert (attribute_names attrs' ⊆ attribute_names attrs) as Hsub
    by (apply elem_of_subseteq; intros x Hx;
        destruct (decide (x ∈ attribute_names attrs)); [done|set_solver]).
  destruct (forallb _ _) eqn:Hall; simpl.
  - rewrite forallb_forall in Hall.
    case_bool_decide as Hreq; simpl.
    + split; [|done]. intros _. split_and!; [done| |done].
      intros name t t' Ht Ht'.
      specialize (Hall name). rewrite Ht, Ht' in Hall. apply Hall.
      apply list_elem_of_In, elem_of_elements, attr_lookup_is_Some.
      by eexists.
    + split; [done|]. by intros (_ & _ & ?).
  - split; [done|]. intros (_ & Heq & _).
    apply not_true_iff_false in Hall. destruct Hall.
    apply forallb_forall. intros name Hin%list_elem_of_In%elem_of_elements.
    pose proof Hin as [t' Ht']%attr_lookup_is_Some.
    apply Hsub in Hin as [t Ht]%attr_lookup_is_Some.
    rewrite Ht, Ht'. by eapply Heq.
Qed.

(** C2: for two Object descriptors, [usable_as] returns, and returns true
    exactly when (a) the other's attribute names are among the receiver's,
    (b) the descriptors of every shared attribute are [equal], and (c) the
    other's required attributes are among the receiver's.  Consequently,
    for two Objects over the same attribute types, A requiring only {x} and
    B requiring {x, y}: A.usable_as(B) is false and B.usable_as(A) is
    true. *)
Theorem CtyObject_usable_as_iff :
  (forall attrs opt comp blk sens attrs' opt' comp' blk' sens',
     let self := CtyObject attrs opt comp blk sens in
     let other := CtyObject attrs' opt' comp' blk' sens' in
     (exists b, usable_as self other = Ok b)
     /\ (usable_as self other = Ok true <->
         attribute_names attrs' ⊆ attribute_names attrs
         /\ (forall name self_type other_type,
               attr_lookup name attrs = Some self_type ->
               attr_lookup name attrs' = Some other_type ->
               equal self_type other_type = true)
         /\ required_attributes other ⊆ required_attributes self))
  /\ (forall attrs optA compA blkA sensA optB compB blkB sensB x y,
        let A := CtyObject attrs optA compA blkA sensA in
        let B := CtyObject attrs optB compB blkB sensB in
        wf_cty A = true ->
        x <> y ->
        required_attributes A = {[x]} ->
        required_attributes B = {[x; y]} ->
        usable_as A B = Ok false /\ usable_as B A = Ok true).
Proof.
  split.
  - intros. split; [by eexists|]. subst self other. simpl.
    rewrite <- CtyObject_usable_as_true.
    split; [by intros [= ->]|by intros ->].
  - intros attrs optA compA blkA sensA optB compB blkB sensB x y A B
      Hwf Hxy HA HB.
    assert (forall name t t',
              attr_lookup name attrs = Some t ->
              attr_lookup name attrs = Some t' -> equal t t' = true) as Hb.
    { intros name t t' Ht Ht'. rewrite Ht in Ht'. injection Ht' as <-.
      apply equal_refl. simpl in Hwf.
      apply andb_prop in Hwf as [_ Hwf]. rewrite forallb_forall in Hwf.
      clear -Ht Hwf. induction attrs as [|[n u] attrs IH]; [done|].
      simpl in Ht. case_bool_decide.
      - injection Ht as ->. apply (Hwf (n, t)). by left.
      - apply IH; [|done]. intros nt Hnt. apply Hwf. by right. }
    split.
    + change (usable_as A B)
        with (Ok (CtyObject_usable_as attrs (required_attributes A)
                    attrs (required_attributes B))).
      destruct (CtyObject_usable_as _ _ _ _) eqn:E; [|done].
      apply CtyObject_usable_as_true in E as (_ & _ & Hreq).
      rewrite HA, HB in Hreq. set_solver.
    + change (usable_as B A)
        with (Ok (CtyObject_usable_as attrs (required_attributes B)
                    attrs (required_attributes A))).
      f_equal. apply CtyObject_usable_as_true.
      split_and!; [done|exact Hb|]. rewrite HA, HB. set_solver.
Qed.

(** ** The primitive descriptors *)

Lemma CtyBool_validate_succeeds self v :
  succeeds (validate (CtyBool self) v) = true <-> class_of v = c_bool.
Proof. destruct v as [| | | | | | | | | | | | |[]]; by simpl. Qed.

Lemma CtyString_validate_succeeds self v :
  succeeds (validate (CtyString self) v) = true <-> class_of v = c_str.
Proof. destruct v as [| | | | | | | | | | | | |[]]; by simpl. Qed.

(** [isinstance(value, (int, float))] holds of a boolean too. *)
Lemma CtyNumber_validate_succeeds self v :
  succeeds (validate (CtyNumber self) v) = true <->
  class_of v = c_int \/ class_of v = c_float \/ class_of v = c_bool.
Proof.
  destruct v as [| | | | | | | | | | | | |[]]; simpl; split;
    (done || (intros [|[|]]; done) || auto).
Qed.

(** C1: [CtyNumber.validate] accepts a boolean, whose native kind is not
    that of Number: the validation succeeds where the kinds do not match. *)
Theorem CtyNumber_validate_accepts_bool : forall self b,
  validate (CtyNumber self) (PBool b) = Ok (PCty (CtyNumber (PBool b)))
  /\ native_kind_matches (CtyNumber self) (PBool b) = false.
Proof. intros self b. split; reflexivity. Qed.

(** What a primitive returns: an instance of its own class carrying the
    value. *)
Lemma primitive_validate_Ok t v r :
  is_primitive t = true -> validate t v = Ok r ->
  exists t', r = PCty t' /\ cty_class t' = cty_class t
             /\ is_primitive t' = true /\ get_value t' = Ok v.
Proof.
  destruct t; try done; intros _; simpl;
    unfold CtyBool_validate, CtyNumber_validate, CtyString_validate;
    destruct (isinstance v _); try done; intros [= <-]; by eexists.
Qed.

Lemma primitive_validate_instance t t' :
  is_primitive t = true ->
  validate t (PCty t') = raise ValidationError (kind_mismatch t).
Proof. destruct t; try done; intros _; by destruct t'. Qed.

(** ** Idempotence *)

Lemma CtyList_validate_from_fixed element_validate l : forall i acc,
  Forall (fun x => element_validate x = Ok x) l ->
  CtyList_validate_from element_validate i l acc = Ok (acc ++ l)%list.
Proof.
  induction l as [|x l IH]; simpl; intros i acc Hl.
  - by rewrite app_nil_r.
  - apply Forall_cons in Hl as [-> Hl]. rewrite IH by done.
    by rewrite <- app_assoc.
Qed.

(** The elements [CtyList.validate] returns are results of the element
    validation. *)
Lemma CtyList_validate_from_results element_validate l : forall i acc r,
  CtyList_validate_from element_validate i l acc = Ok r ->
  exists l', r = (acc ++ l')%list
             /\ Forall (fun y => exists x, element_validate x = Ok y) l'.
Proof.
  induction l as [|x l IH]; simpl; intros i acc r Hr.
  - injection Hr as <-. exists []. by rewrite app_nil_r.
  - destruct (element_validate x) as [y|] eqn:Hx; [|done].
    apply IH in Hr as (l' & -> & Hl'). exists (y :: l').
    rewrite <- app_assoc. split; [done|]. constructor; [by exists x|done].
Qed.

(** C3 (as amended): validation is idempotent for Dynamic, and for a List
    whose element descriptor's validation is idempotent.  For a primitive
    descriptor P it is not: P.validate(v) returns a P instance carrying v,
    P.validate of that instance fails with the kind-mismatch error, and
    validating the value it carries gives P.validate(v) again. *)
Theorem validate_idempotent_cases :
  (forall v, validate_idempotent CtyDynamic v)
  /\ (forall element_type v,
        (forall x, validate_idempotent element_type x) ->
        validate_idempotent (CtyList element_type) v)
  /\ (forall t v r,
        is_primitive t = true -> validate t v = Ok r ->
        validate t r = raise ValidationError (kind_mismatch t)
        /\ exists carried, unwrap_value r = Ok carried
                           /\ validate t carried = Ok r).
Proof.
  split_and!.
  - intros v r. simpl. unfold CtyDynamic_validate.
    destruct (isinstance v _); [|done]. by intros [= <-].
  - intros e v He r Hr.
    assert (exists l, r = PList l
                      /\ Forall (fun y => exists x, validate e x = Ok y) l)
      as (l & -> & Hl).
    { simpl in Hr. unfold CtyList_validate in Hr.
      destruct v; try done;
        try (injection Hr as <-; by exists []);
        destruct (CtyList_validate_from _ _ _ _) eqn:E; try done;
        injection Hr as <-;
        apply CtyList_validate_from_results in E as (l' & -> & Hl');
        by exists l'. }
    simpl. rewrite (CtyList_validate_from_fixed _ l); [done|].
    eapply Forall_impl; [exact Hl|]. intros y [x Hx]. by apply (He x).
  - intros t v r Ht Hr.
    destruct (primitive_validate_Ok t v r Ht Hr) as (t' & -> & _ & _ & Hv).
    split; [by apply primitive_validate_instance|].
    exists v. by split.
Qed.

(** C3 (as stated) fails: [CtyString.validate] returns a [CtyString]
    instance, which it does not accept. *)
Lemma validate_idempotent_fails_CtyString :
  ~ validate_idempotent (tString) (PStr "x").
Proof. intros H. by specialize (H _ eq_refl). Qed.

(** ** [CtyList.validate] stops at the first failure *)

Lemma CtyList_validate_from_first_failure element_validate pre item post e :
  forall i acc,
  Forall (fun x => succeeds (element_validate x) = true) pre ->
  element_validate item = Raise e ->
  CtyList_validate_from element_validate i (pre ++ item :: post)%list acc
  = raise ValidationError (InvalidElementAtIndex (i + length pre) (exc_msg e)).
Proof.
  induction pre as [|x pre IH]; simpl; intros i acc Hpre Hitem.
  - rewrite Hitem. by rewrite Nat.add_0_r.
  - apply Forall_cons in Hpre as [Hx Hpre].
    destruct (element_validate x); [|done].
    rewrite IH by done. by rewrite Nat.add_succ_r.
Qed.

(** C4 (as amended): [CtyList.validate] raises at the first element its
    element descriptor rejects; the error names that index only, with the
    element's own message, whatever follows it in the sequence. *)
Theorem CtyList_validate_first_failure element_type pre item post e :
  Forall (fun x => succeeds (validate element_type x) = true) pre ->
  validate element_type item = Raise e ->
  let err := mkExc ValidationError
               (InvalidElementAtIndex (length pre) (exc_msg e)) in
  validate (CtyList element_type) (PList (pre ++ item :: post)%list) = Raise err
  /\ validate (CtyList element_type) (PTuple (pre ++ item :: post)%list) = Raise err
  /\ reported_indices (exc_msg err) = [length pre].
Proof.
  intros Hpre Hitem. simpl.
  by rewrite (CtyList_validate_from_first_failure _ pre item post e).
Qed.

(** C4 (as stated) fails: of the two invalid elements only index 0 is
    reported. *)
Lemma CtyList_validate_not_aggregated :
  ~ reports_all_failures (tNumber) [PStr "a"; PStr "b"].
Proof. intros (e & [= <-] & Hidx). discriminate Hidx. Qed.

(** ** [CtySet.add] and [CtySet.remove] *)

(** [remove] leaves the receiver's set as it was and returns a new
    instance. *)
Lemma CtySet_remove_pure element_type item value :
  (CtySet_remove element_type item value).2 = value.
Proof. unfold CtySet_remove. by destruct (validate element_type item). Qed.

(** When [add] returns, it returns nothing and the receiver's set holds the
    element. *)
Lemma CtySet_add_Ok element_type element value r :
  (CtySet_add element_type element value).1 = Ok r ->
  r = PNone
  /\ (CtySet_add element_type element value).2 = set_store value element.
Proof.
  unfold CtySet_add. destruct (set_union_single value element); [|done].
  destruct (validate _ _) as [?|e]; simpl.
  - by intros [= <-].
  - by destruct (is_ValidationError (exc_class e)).
Qed.

(** C5: [CtySet.add] on an empty Number set returns nothing and leaves the
    receiver's own set object holding the element: the receiver is updated
    in place, no new Set is returned. *)
Theorem CtySet_add_in_place :
  CtySet_add (tNumber) (PInt 1) [] = (Ok PNone, [PInt 1]).
Proof. reflexivity. Qed.

(** ** Construction of a [CtyObject] *)

(** C6: constructing an Object fails, with an [AttributeValidationError],
    whenever a name of the optional, computed, block or sensitive set is not
    an attribute name: no descriptor is returned to validate with. *)
Theorem CtyObject_construction_unknown_name
    attribute_types optional computed block sensitive name :
  name ∈ optional ∪ computed ∪ block ∪ sensitive ->
  name ∉ attribute_names attribute_types ->
  exists m, CtyObject_attrs_post_init attribute_types optional computed block sensitive
            = raise AttributeValidationError m.
Proof.
  intros Hin Hnot. unfold CtyObject_attrs_post_init.
  repeat (case_bool_decide; simpl; [|by eexists]).
  set_solver.
Qed.

(** Otherwise the descriptor is built from the arguments as they are. *)
Lemma CtyObject_construction_Ok attribute_types optional computed block sensitive :
  optional ∪ computed ∪ block ∪ sensitive ⊆ attribute_names attribute_types ->
  CtyObject_attrs_post_init attribute_types optional computed block sensitive
  = Ok (CtyObject attribute_types optional computed block sensitive).
Proof.
  intros Hsub. unfold CtyObject_attrs_post_init.
  by rewrite !bool_decide_eq_true_2 by set_solver.
Qed.

(** ** [CtyList.usable_as] *)

Lemma CtyList_usable_as_other element_type other :
  cty_class other <> c_CtyList ->
  usable_as (CtyList element_type) other = Ok false.
Proof. by destruct other. Qed.

(** C8: against another List, [CtyList.usable_as] raises an
    [AttributeError] (it reads [self.types]) whatever the element types
    are, where the claim has it return whether the element types are
    usable. *)
Theorem CtyList_usable_as_raises : forall element_type element_type',
  usable_as (CtyList element_type) (CtyList element_type')
  = raise AttributeError (NoAttribute "CtyList" "types").
Proof. reflexivity. Qed.

(** ** [validate(None)] *)

(** C10: [CtyMap.validate(None)] raises a [ValidationError], while
    [CtyList.validate(None)] is the empty list and [CtySet.validate(None)]
    a Set holding the empty set. *)
Theorem validate_None :
  (forall key_type value_type metadata default mutable,
     validate (CtyMap key_type value_type metadata default mutable) PNone
     = raise ValidationError (ExpectedDict "NoneType"))
  /\ (forall element_type, validate (CtyList element_type) PNone = Ok (PList []))
  /\ (forall element_type value,
        validate (CtySet element_type value) PNone
        = Ok (PCty (CtySet element_type []))).
Proof.
  split_and!; try reflexivity.
  intros. by rewrite validate_CtyMap, validate_map_unfold.
Qed.

(** ** [CtyObject.validate] *)

Lemma same_key_PStr k name : same_key k (PStr name) = true -> k = PStr name.
Proof.
  unfold same_key. intros [_ Heq]%andb_prop.
  destruct k as [| | | |s| | | | | | | | |t]; simpl in Heq; try done.
  - by apply bool_decide_eq_true_1 in Heq as ->.
  - by destruct t.
Qed.

Lemma same_key_PStr_PStr n m :
  same_key (PStr n) (PStr m) = bool_decide (n = m).
Proof.
  unfold same_key, same_hash. simpl.
  by destruct (bool_decide (n = m)).
Qed.

Lemma dict_get_store_eq d name v :
  dict_get (dict_store d (PStr name) v) (PStr name) = Some v.
Proof.
  induction d as [|[k w] d IH]; simpl.
  - by rewrite same_key_PStr_PStr, bool_decide_eq_true_2.
  - destruct (same_key k (PStr name)) eqn:E; simpl; by rewrite E.
Qed.

Lemma dict_get_store_ne d name name' v :
  name <> name' ->
  dict_get (dict_store d (PStr name') v) (PStr name) = dict_get d (PStr name).
Proof.
  intros Hne. induction d as [|[k w] d IH]; simpl.
  - by rewrite same_key_PStr_PStr, bool_decide_eq_false_2.
  - destruct (same_key k (PStr name')) eqn:E; simpl.
    + apply same_key_PStr in E as ->.
      by rewrite same_key_PStr_PStr, bool_decide_eq_false_2.
    + by rewrite IH.
Qed.



(** The example of the specification: [count] is optional and absent;
    [name] is bound to the String instance its descriptor returns. *)
Example CtyObject_validate_name_count :
  validate
    (CtyObject [("name", tString); ("count", tNumber)]
       {["count"]} ∅ ∅ ∅)
    (PDict [(PStr "name", PStr "x")])
  = Ok (PDict [(PStr "name", PCty (CtyString (PStr "x")));
               (PStr "count", PNone)]).
Proof. reflexivity. Qed.

(** ** [CtyMap.validate] and the promotion of strings *)

(** With a map as value type, [_wrap_value] hands a string [s] to the value
    type's [validate] as the mapping [{s: s}]. *)
Lemma CtyMap_wrap_value_str value_type nested_map_validate value_type_validate s :
  cty_class value_type = c_CtyMap ->
  CtyMap_wrap_value value_type nested_map_validate value_type_validate (PStr s)
  = value_type_validate (PDict [(PStr s, PStr s)]).
Proof. by destruct value_type. Qed.

(** The loop returns only if [_wrap_value] returned for every value. *)
Lemma CtyMap_validate_from_wrapped key_validate wrap_value items :
  forall validated r,
  CtyMap_validate_from key_validate wrap_value items validated = Ok r ->
  forall k v, (k, v) ∈ items -> succeeds (wrap_value v) = true.
Proof.
  induction items as [|[k0 v0] items IH]; simpl; intros validated r Hr k v Hin.
  - by apply elem_of_nil in Hin.
  - destruct (key_validate k0) as [vk|]; [simpl in Hr|done].
    destruct (wrap_value v0) as [vv|] eqn:Hv0; [simpl in Hr|done].
    destruct (match vv with PList l => _ | _ => _ end) as [vv'|];
      [simpl in Hr|done].
    destruct (unwrap_value vk) as [key|]; [simpl in Hr|done].
    destruct (dict_set validated key vv') as [validated'|]; [simpl in Hr|done].
    apply elem_of_cons in Hin as [[= -> ->]|Hin]; [by rewrite Hv0|].
    by eapply IH.
Qed.

(** [CtyMap.validate] returns a mapping. *)
Lemma CtyMap_validate_result key_validate wrap_value mutable v p :
  CtyMap_validate key_validate wrap_value mutable v = Ok p ->
  exists validated, p = map_result mutable validated.
Proof.
  unfold CtyMap_validate. destruct v; try done.
  destruct (CtyMap_validate_from _ _ _ _) as [validated|]; [|done].
  intros [= <-]. by exists validated.
Qed.

(** C9 (as amended): let M be a Map whose value type is a Map N.  A string
    value s is validated by N as the mapping {s: s}: M.validate returns only
    if N accepts {s: s}; on a single-entry mapping {k: s} whose key M's key
    type accepts, M.validate binds the key to what N returns for {s: s};
    and when N's key and value types are String, N returns {s: s}. *)
Theorem CtyMap_validate_string_promotion
    key_type metadata default mutable
    key_type' value_type' metadata' default' mutable' :
  let N := CtyMap key_type' value_type' metadata' default' mutable' in
  let M := CtyMap key_type N metadata default mutable in
  (forall items r k s,
     validate M (PDict items) = Ok r -> (k, PStr s) ∈ items ->
     succeeds (validate N (PDict [(PStr s, PStr s)])) = true)
  /\ (forall k s validated_key key p,
        validate key_type k = Ok validated_key ->
        unwrap_value validated_key = Ok key ->
        hashable key = true ->
        validate N (PDict [(PStr s, PStr s)]) = Ok p ->
        validate M (PDict [(k, PStr s)]) = Ok (map_result mutable [(key, p)]))
  /\ (cty_class key_type' = c_CtyString ->
      cty_class value_type' = c_CtyString ->
      forall s, validate N (PDict [(PStr s, PStr s)])
                = Ok (map_result mutable' [(PStr s, PStr s)])).
Proof.
  intros N M. split_and!.
  - intros items r k s Hr Hin. subst M.
    rewrite validate_CtyMap, validate_map_unfold in Hr.
    unfold CtyMap_validate in Hr.
    destruct (CtyMap_validate_from _ _ _ _) eqn:E; [|done].
    eapply CtyMap_validate_from_wrapped in E; [|exact Hin].
    by rewrite CtyMap_wrap_value_str in E.
  - intros k s vk key p Hk Hkey Hhash Hp. subst M.
    rewrite validate_CtyMap, validate_map_unfold.
    unfold CtyMap_validate, CtyMap_validate_from.
    rewrite Hk. simpl. change (validate_map (validate key_type') value_type'
                                 mutable') with (validate N).
    rewrite Hp. simpl.
    pose proof Hp as Hp'. subst N.
    rewrite validate_CtyMap, validate_map_unfold in Hp'.
    apply CtyMap_validate_result in Hp' as [validated ->].
    unfold dict_set, hashable in *.
    destruct mutable'; simpl; rewrite Hkey; simpl;
      by destruct (py_hash key).
  - intros Hk Hv s. subst N.
    rewrite validate_CtyMap, validate_map_unfold.
    destruct key_type'; try done. by destruct value_type'.
Qed.

(** C9 (as stated) fails: with a Number-valued inner map the string is
    rejected, not promoted. *)
Lemma CtyMap_validate_string_not_promoted :
  ~ promotes_string
      (CtyMap (tString)
         (CtyMap (tString) (tNumber) PNone PNone false)
         PNone PNone false)
      (PStr "k") "s".
Proof. by intros (r & entries & p & [=] & _). Qed.

(** ** The theorems at the specification's examples *)

(** Objects over [x] and [y]: A requires only [x], B requires both. *)
Lemma CtyObject_usable_as_iff_example :
  let attrs := [("x", tString); ("y", tNumber)] in
  let A := CtyObject attrs {["y"]} ∅ ∅ ∅ in
  let B := CtyObject attrs ∅ ∅ ∅ ∅ in
  (wf_cty A = true /\ "x" <> "y"
   /\ required_attributes A = {["x"]}
   /\ required_attributes B = {["x"; "y"]})
  /\ usable_as A B = Ok false /\ usable_as B A = Ok true.
Proof.
  intros attrs A B.
  assert (wf_cty A = true) as H1 by reflexivity.
  assert ("x" <> "y") as H2 by discriminate.
  assert (required_attributes A = {["x"]}) as H3 by reflexivity.
  assert (required_attributes B = {["x"; "y"]}) as H4
    by (vm_compute; reflexivity).
  split; [by repeat split|].
  exact (proj2 CtyObject_usable_as_iff attrs {["y"]} ∅ ∅ ∅ ∅ ∅ ∅ ∅
           "x" "y" H1 H2 H3 H4).
Defined.

(** A String descriptor on ["x"]. *)
Lemma validate_idempotent_cases_example :
  let t := tString in
  let r := PCty (CtyString (PStr "x")) in
  (is_primitive t = true /\ validate t (PStr "x") = Ok r)
  /\ validate t r = raise ValidationError (kind_mismatch t)
  /\ exists carried, unwrap_value r = Ok carried /\ validate t carried = Ok r.
Proof.
  intros t r. split; [split; reflexivity|].
  apply (proj2 (proj2 validate_idempotent_cases) t (PStr "x") r);
    reflexivity.
Defined.

(** A Number list whose second and third elements are invalid. *)
Lemma CtyList_validate_first_failure_example :
  let element_type := tNumber in
  let e := mkExc ValidationError MustBeNumber in
  let err := mkExc ValidationError (InvalidElementAtIndex 1 MustBeNumber) in
  validate (CtyList element_type) (PList [PInt 1; PStr "a"; PStr "b"])
  = Raise err
  /\ validate (CtyList element_type) (PTuple [PInt 1; PStr "a"; PStr "b"])
     = Raise err
  /\ reported_indices (exc_msg err) = [1%nat].
Proof.
  intros element_type e err.
  apply (CtyList_validate_first_failure element_type
           [PInt 1] (PStr "a") [PStr "b"] e).
  - repeat constructor.
  - reflexivity.
Defined.

(** The specification's example: attribute [a], optional name [b]. *)
Lemma CtyObject_construction_unknown_name_example :
  exists m, CtyObject_attrs_post_init [("a", tString)] {["b"]} ∅ ∅ ∅
            = raise AttributeValidationError m.
Proof.
  apply (CtyObject_construction_unknown_name _ _ _ _ _ "b").
  - vm_compute. reflexivity.
  - vm_compute. discriminate.
Defined.


(** A map of String-to-String maps on [{"k": "s"}]. *)
Lemma CtyMap_validate_string_promotion_example :
  let N := CtyMap (tString) (tString) PNone PNone false in
  let M := CtyMap (tString) N PNone PNone false in
  validate M (PDict [(PStr "k", PStr "s")])
  = Ok (PMappingProxy [(PStr "k", PMappingProxy [(PStr "s", PStr "s")])]).
Proof.
  intros N M.
  apply (proj1 (proj2 (CtyMap_validate_string_promotion
                         (tString) PNone PNone false
                         (tString) (tString)
                         PNone PNone false))
           (PStr "k") "s" (PCty (CtyString (PStr "k"))) (PStr "k")
           (PMappingProxy [(PStr "s", PStr "s")]));
    reflexivity.
Defined.

(** * Further properties of the code *)

(** ** [CtySet.validate] *)

(** Whether an item is rejected does not depend on the set built so far. *)
Lemma CtySet_validate_item_Raise element_validate validated item e :
  CtySet_validate_item element_validate validated item = Raise e <->
  CtySet_validate_item element_validate [] item = Raise e.
Proof.
  unfold CtySet_validate_item, set_add.
  destruct (if isinstance item _ then _ else _) as [x|]; simpl; [|done].
  by destruct (py_hash x).
Qed.

Lemma CtySet_validate_item_Ok element_validate validated item validated' :
  CtySet_validate_item element_validate validated item = Ok validated' ->
  CtySet_item_fails element_validate item = false
  /\ exists x, element_validate item = Ok x /\ hashable x = true
               /\ validated' = set_store validated x.
Proof.
  unfold CtySet_item_fails, CtySet_validate_item, set_add, hashable.
  destruct (isinstance item _); [done|].
  destruct (element_validate item) as [x|]; simpl; [|done].
  destruct (py_hash x) eqn:Eh; [|done]. intros [= <-].
  split; [reflexivity|]. exists x. by rewrite Eh.
Qed.

Lemma CtySet_item_fails_Raise element_validate validated item e :
  CtySet_validate_item element_validate validated item = Raise e ->
  CtySet_item_fails element_validate item = true.
Proof.
  intros H%CtySet_validate_item_Raise. unfold CtySet_item_fails.
  by rewrite H.
Qed.

(** The loop records exactly the rejected items, in order, each with its
    index and its own message. *)
Lemma CtySet_validate_from_errors element_validate items :
  forall i validated errs,
  exists errs',
    (CtySet_validate_from element_validate i items validated errs).2
    = (errs ++ errs')%list
    /\ errs'.*1
       = filter (fun p : nat * PyVal => CtySet_item_fails element_validate p.2)
           (imap (fun j x => ((i + j)%nat, x)) items)
    /\ Forall (fun err : nat * PyVal * Msg =>
                 exists e, CtySet_validate_item element_validate [] err.1.2
                           = Raise e /\ exc_msg e = err.2) errs'.
Proof.
  induction items as [|item items IH]; intros i validated errs.
  - exists []. by rewrite app_nil_r.
  - simpl. rewrite filter_cons. simpl. rewrite Nat.add_0_r.
    assert (imap ((fun j x => ((i + j)%nat, x)) ∘ S) items
            = imap (fun j x => ((S i + j)%nat, x)) items) as ->
      by (apply imap_ext; intros; simpl; f_equal; lia).
    destruct (CtySet_validate_item element_validate validated item)
      as [validated'|e] eqn:E.
    + destruct (IH (S i) validated' errs) as (errs' & -> & Hidx & Hmsg).
      apply CtySet_validate_item_Ok in E as [E _].
      exists errs'. rewrite E. by case_decide.
    + destruct (IH (S i) validated (errs ++ [(i, item, exc_msg e)])%list)
        as (errs' & -> & Hidx & Hmsg).
      exists ((i, item, exc_msg e) :: errs').
      rewrite <- app_assoc. split; [done|].
      rewrite (CtySet_item_fails_Raise _ _ _ _ E).
      case_decide as Hd; [|by destruct Hd]. simpl. split; [by f_equal|].
      constructor; [|done]. exists e. split; [|done].
      by apply CtySet_validate_item_Raise in E.
Qed.





(** What [CtySet.validate] does on a non-empty list, in terms of its loop. *)
Lemma CtySet_validate_PList element_type element_validate item items :
  CtySet_validate element_type element_validate (PList (item :: items))
  = match CtySet_validate_from element_validate 0 (item :: items) [] [] with
    | (validated, []) => Ok (PCty (CtySet element_type validated))
    | (_, validation_errors) =>
        raise ValidationError (SetValidationFailed validation_errors)
    end.
Proof. reflexivity. Qed.

(** X1: [CtySet.validate] aggregates: on a non-empty list it returns a Set
    when no item is rejected, and otherwise raises one error that lists
    exactly the rejected items, in order, each with its index. *)
Theorem CtySet_validate_aggregates element_type value item items :
  let l := item :: items in
  let rejected :=
    filter (fun p : nat * PyVal =>
              CtySet_item_fails (validate element_type) p.2)
      (imap pair l) in
  (rejected = [] ->
   exists s, validate (CtySet element_type value) (PList l)
             = Ok (PCty (CtySet element_type s)))
  /\ (rejected <> [] ->
      exists errs,
        validate (CtySet element_type value) (PList l)
        = raise ValidationError (SetValidationFailed errs)
        /\ errs.*1 = rejected).
Proof.
  intros l rejected.
  change (validate (CtySet element_type value) (PList l))
    with (CtySet_validate element_type (validate element_type) (PList l)).
  subst l. rewrite CtySet_validate_PList.
  destruct (CtySet_validate_from_errors (validate element_type)
              (item :: items) 0 [] []) as (errs & Herrs & Hidx & _).
  destruct (CtySet_validate_from _ _ _ _ _) as [validated errs0].
  simpl in Herrs. subst errs0. change (errs.*1 = rejected) in Hidx.
  split; intros Hrej.
  - rewrite Hrej in Hidx. apply fmap_nil_inv in Hidx as ->. by eexists.
  - destruct errs as [|err errs]; [by rewrite <- Hidx in Hrej|].
    by eexists.
Qed.


(** X3: a rejected item is never dropped: whatever else the list holds,
    the validation raises and the error carries the item's index, the item
    and its message.  In particular a list holding a set or a frozenset is
    always rejected. *)
Theorem CtySet_validate_rejected_item element_type value items i item :
  items !! i = Some item ->
  CtySet_item_fails (validate element_type) item = true ->
  exists errs m,
    validate (CtySet element_type value) (PList items)
    = raise ValidationError (SetValidationFailed errs)
    /\ (i, item, m) ∈ errs
    /\ (isinstance item [c_set; c_frozenset] = true -> m = NestedSets).
Proof.
  intros Hi Hfail.
  destruct items as [|item0 items]; [done|].
  change (validate (CtySet element_type value) (PList (item0 :: items)))
    with (CtySet_validate element_type (validate element_type)
            (PList (item0 :: items))).
  rewrite CtySet_validate_PList.
  destruct (CtySet_validate_from_errors (validate element_type)
              (item0 :: items) 0 [] []) as (errs & Herrs & Hidx & Hmsg).
  destruct (CtySet_validate_from _ _ _ _ _) as [validated errs0].
  simpl in Herrs. subst errs0.
  assert ((i, item) ∈ errs.*1) as Hin.
  { rewrite Hidx. apply list_elem_of_filter. split; [simpl; by rewrite Hfail|].
    apply list_elem_of_lookup. exists i.
    rewrite list_lookup_imap, Hi. done. }
  apply list_elem_of_fmap in Hin as ([[i' item'] m] & [= <- <-] & Hin).
  exists errs, m. split_and!.
  - destruct errs; [by apply elem_of_nil in Hin|done].
  - done.
  - intros Hset. rewrite Forall_forall in Hmsg.
    destruct (Hmsg _ Hin) as (e & He & Hm). simpl in He, Hm. subst m.
    unfold CtySet_validate_item in He. rewrite Hset in He.
    simpl in He. by injection He as <-.
Qed.

(** ** [CtySet.add] and [CtySet.remove], continued *)

Lemma CtySet_validate_from_rejected element_validate items i item :
  items !! i = Some item ->
  CtySet_item_fails element_validate item = true ->
  (CtySet_validate_from element_validate 0 items [] []).2 <> [].
Proof.
  intros Hi Hfail.
  destruct (CtySet_validate_from_errors element_validate items 0 [] [])
    as (errs & -> & Hidx & _). simpl. intros ->.
  assert ((i, item) ∈ @nil (nat * PyVal)) as Hin; [|by apply elem_of_nil in Hin].
  change (@nil (nat * PyVal)) with ((@nil (nat * PyVal * Msg)).*1).
  rewrite Hidx. apply list_elem_of_filter. split; [simpl; by rewrite Hfail|].
  apply list_elem_of_lookup. exists i. by rewrite list_lookup_imap, Hi.
Qed.

(** A primitive rejects every descriptor instance, so a Set of primitives
    rejects its own validated elements. *)
Lemma CtySet_item_fails_instance element_type x :
  is_primitive element_type = true ->
  CtySet_item_fails (validate element_type) (PCty x) = true.
Proof.
  intros Hp. unfold CtySet_item_fails, CtySet_validate_item.
  replace (isinstance (PCty x) [c_set; c_frozenset]) with false
    by (by destruct x).
  by rewrite primitive_validate_instance.
Qed.

Lemma CtySet_validate_PSet element_type element_validate item items :
  CtySet_validate element_type element_validate (PSet (item :: items))
  = match CtySet_validate_from element_validate 0 (item :: items) [] [] with
    | (validated, []) => Ok (PCty (CtySet element_type validated))
    | (_, validation_errors) =>
        raise ValidationError (SetValidationFailed validation_errors)
    end.
Proof. reflexivity. Qed.

(** X4: [CtySet.add] validates the receiver's elements again together with
    the new one.  When the receiver holds an element its descriptor rejects
    - as is every instance a primitive's [validate] returned - [add] raises
    a [ValidationError] for every hashable element, and leaves the receiver
    as it was. *)
Theorem CtySet_add_rejects_receiver element_type element value y :
  y ∈ value ->
  CtySet_item_fails (validate element_type) y = true
  \/ (is_primitive element_type = true /\ exists x, y = PCty x) ->
  hashable element = true ->
  exists m, CtySet_add element_type element value
            = (raise ValidationError (FailedToAdd m), value).
Proof.
  intros Hy Hfail Hh.
  assert (CtySet_item_fails (validate element_type) y = true) as Hfail'.
  { destruct Hfail as [|[Hp [x ->]]]; [done|].
    by apply CtySet_item_fails_instance. }
  clear Hfail. unfold CtySet_add, set_union_single, set_add, hashable in *.
  destruct (py_hash element); [|done].
  assert (y ∈ set_store value element) as Hy'.
  { unfold set_store. destruct (existsb _ value); [done|].
    apply elem_of_app. by left. }
  apply list_elem_of_lookup in Hy' as [i Hi].
  pose proof (CtySet_validate_from_rejected (validate element_type)
                _ i y Hi Hfail') as Herr.
  change (validate (CtySet element_type value) (PSet (set_store value element)))
    with (CtySet_validate element_type (validate element_type)
            (PSet (set_store value element))).
  destruct (set_store value element) as [|z s] eqn:Es; [done|].
  rewrite CtySet_validate_PSet.
  destruct (CtySet_validate_from _ _ _ _ _) as [validated [|err errs]];
    [done|]. by eexists.
Qed.



(** ** [CtyList.validate] and [CtyList.element_at] *)

Lemma CtyList_validate_from_Forall2 element_validate l : forall i acc r,
  CtyList_validate_from element_validate i l acc = Ok r <->
  exists l', r = (acc ++ l')%list
             /\ Forall2 (fun x y => element_validate x = Ok y) l l'.
Proof.
  induction l as [|x l IH]; simpl; intros i acc r.
  - split.
    + intros [= <-]. exists []. by rewrite app_nil_r.
    + intros (l' & -> & ->%Forall2_nil_inv_l). by rewrite app_nil_r.
  - destruct (element_validate x) as [y|e] eqn:Hx.
    + rewrite IH. split.
      * intros (l' & -> & Hl'). exists (y :: l').
        rewrite <- app_assoc. split; [done|by constructor].
      * intros (l' & -> & Hl').
        apply Forall2_cons_inv_l in Hl' as (y' & l'' & Hy' & Hl'' & ->).
        rewrite Hx in Hy'. injection Hy' as <-. exists l''.
        by rewrite <- app_assoc.
    + split; [done|]. intros (l' & _ & Hl').
      apply Forall2_cons_inv_l in Hl' as (y' & l'' & Hy' & _).
      by rewrite Hx in Hy'.
Qed.

(** X6: [CtyList.validate] returns exactly when the element descriptor
    accepts every element, and then returns the validated elements in the
    order and number of the input; a tuple is treated as the list of its
    items and comes back as a list. *)
Theorem CtyList_validate_Ok_iff element_type l r :
  (validate (CtyList element_type) (PList l) = Ok r <->
   exists l', r = PList l'
              /\ Forall2 (fun x y => validate element_type x = Ok y) l l')
  /\ validate (CtyList element_type) (PTuple l)
     = validate (CtyList element_type) (PList l).
Proof.
  split; [|reflexivity]. simpl.
  destruct (CtyList_validate_from _ _ _ _) as [l0|e] eqn:E; simpl.
  - apply CtyList_validate_from_Forall2 in E as (l' & -> & Hl'). simpl.
    split; [intros [= <-]; by exists l'|].
    intros (l'' & -> & Hl''). f_equal. f_equal.
    clear -Hl' Hl''. revert l'' Hl''.
    induction Hl' as [|x y l l' Hxy _ IH]; intros l'' Hl''.
    + by apply Forall2_nil_inv_l in Hl''.
    + apply Forall2_cons_inv_l in Hl'' as (y' & l''' & Hy' & Hl''' & ->).
      rewrite Hxy in Hy'. injection Hy' as <-. f_equal. by apply IH.
  - split; [done|]. intros (l' & _ & Hl').
    assert (CtyList_validate_from (validate element_type) 0 l [] = Ok l')
      as E' by (apply CtyList_validate_from_Forall2; by exists l').
    by rewrite E in E'.
Qed.

Lemma list_index_nonneg l (i : nat) :
  (i < length l)%nat -> list_index l (Z.of_nat i) = l !! i.
Proof.
  intros Hi. unfold list_index.
  rewrite bool_decide_eq_true_2 by lia. by rewrite Nat2Z.id.
Qed.

(** X7: reading a validated list back with [CtyList.element_at]: index [i]
    gives what the element descriptor returns for the input's element [i],
    index [i - len] gives the same element counted from the end, and an
    index outside [-len, len) raises the [IndexError] carrying the index and
    the length. *)
Theorem CtyList_element_at_validate element_type l r :
  validate (CtyList element_type) (PList l) = Ok r ->
  (forall (i : nat) x, l !! i = Some x ->
     exists y, validate element_type x = Ok y
               /\ CtyList_element_at r (Z.of_nat i) = inl y
               /\ CtyList_element_at r (Z.of_nat i - Z.of_nat (length l))
                  = inl y)
  /\ (forall index,
        (index < - Z.of_nat (length l) \/ Z.of_nat (length l) <= index)%Z ->
        CtyList_element_at r index
        = inr (ElementAtIndexError index (length l))).
Proof.
  intros Hr. apply (proj1 (CtyList_validate_Ok_iff _ _ _)) in Hr
    as (l' & -> & Hl').
  pose proof (Forall2_length _ _ _ Hl') as Hlen.
  split.
  - intros i x Hi.
    destruct (Forall2_lookup_l _ _ _ _ _ Hl' Hi) as (y & Hy & Hxy).
    exists y. split; [done|].
    pose proof (lookup_lt_Some _ _ _ Hy) as Hlt.
    unfold CtyList_element_at. rewrite list_index_nonneg, Hy by done.
    split; [done|]. unfold list_index.
    rewrite bool_decide_eq_false_2 by lia.
    rewrite bool_decide_eq_true_2 by lia.
    replace (Z.to_nat _) with i by lia. by rewrite Hy.
  - intros index Hidx. unfold CtyList_element_at, list_index.
    rewrite !bool_decide_eq_false_2 by lia. by rewrite Hlen.
Qed.

(** ** [equal] and [usable_as] across the descriptors *)

(** X8: descriptors of different classes are never [equal]. *)
Theorem equal_same_class t other :
  equal t other = true -> cty_class t = cty_class other.
Proof. destruct t, other; simpl; done. Qed.

(** X9: every descriptor that can exist is [equal] to itself, whatever
    values, metadata and member descriptors it carries. *)
Theorem equal_reflexive t : wf_cty t = true -> equal t t = true.
Proof. intros Hwf. by apply py_eq_equal_refl. Qed.

Lemma attr_lookup_elem_of name t attrs :
  attr_lookup name attrs = Some t -> (name, t) ∈ attrs.
Proof.
  induction attrs as [|[n u] attrs IH]; simpl; [done|].
  case_bool_decide as Hn.
  - intros [= ->]. subst. by left.
  - intros Ht. right. by apply IH.
Qed.

Lemma elem_of_required_names name names opt comp :
  name ∈ required_names names opt comp <->
  name ∈ names /\ (name ∉ opt) /\ (name ∉ comp).
Proof.
  unfold required_names.
  rewrite elem_of_list_to_set, list_elem_of_filter. tauto.
Qed.

(** X10: two Objects that are [equal] are usable as one another's type in
    the direction of the comparison: [A.equal(B)] implies
    [A.usable_as(B)]. *)
Theorem CtyObject_equal_usable_as
    attrs opt comp blk sens attrs' opt' comp' blk' sens' :
  let A := CtyObject attrs opt comp blk sens in
  let B := CtyObject attrs' opt' comp' blk' sens' in
  equal A B = true -> usable_as A B = Ok true.
Proof.
  intros A B Heq. simpl in Heq.
  case_bool_decide as Hnames; [simpl in Heq|done].
  destruct (forallb _ attrs) eqn:Hall; [simpl in Heq|done].
  case_bool_decide as Hopt; [simpl in Heq|done].
  case_bool_decide as Hcomp; [simpl in Heq|done]. subst opt' comp'.
  change (usable_as A B)
    with (Ok (CtyObject_usable_as attrs (required_attributes A)
                attrs' (required_attributes B))).
  f_equal. apply CtyObject_usable_as_true. split_and!.
  - by rewrite Hnames.
  - intros name t t' Ht Ht'. rewrite forallb_forall in Hall.
    apply attr_lookup_elem_of, list_elem_of_In in Ht.
    specialize (Hall _ Ht). simpl in Hall. by rewrite Ht' in Hall.
  - intros name. simpl. rewrite !elem_of_required_names.
    intros (Hn & ? & ?). split; [|done].
    assert (name ∈ attribute_names attrs') as Hn'
      by (by apply elem_of_list_to_set).
    rewrite <- Hnames in Hn'. by apply elem_of_list_to_set in Hn'.
Qed.

Lemma issubclass_refl c : issubclass c c = true.
Proof. unfold issubclass. by rewrite bool_decide_eq_true_2. Qed.

(** X11: [usable_as] is nominal at the top: it returns true only for an
    [other] of the receiver's own class, never for a List receiver, and the
    only exception it ever raises is the [AttributeError] of
    [CtyList.usable_as], reached directly or through Set elements and Map
    values. *)
Theorem usable_as_outcomes t :
  forall other,
    (usable_as t other = Ok true ->
     cty_class t = cty_class other /\ cty_class t <> c_CtyList)
    /\ (forall e, usable_as t other = Raise e ->
          e = mkExc AttributeError (NoAttribute "CtyList" "types")).
Proof.
  revert t.
  apply (CtyType_induction (fun _ => True)
           (fun t => forall other,
              (usable_as t other = Ok true ->
               cty_class t = cty_class other /\ cty_class t <> c_CtyList)
              /\ (forall e, usable_as t other = Raise e ->
                    e = mkExc AttributeError (NoAttribute "CtyList" "types"))));
    try done.
  - by intros [].
  - intros v _ other. simpl. split; [|done].
    intros [= H%bool_decide_eq_true_1]. by rewrite H.
  - intros v _ other. simpl. split; [|done].
    intros [= H%bool_decide_eq_true_1]. by rewrite H.
  - intros v _ other. simpl. split; [|done].
    intros [= H%bool_decide_eq_true_1]. by rewrite H.
  - intros e _ other. simpl. destruct other; simpl; split; try done.
    by intros e' [= <-].
  - intros e l IH _ other. destruct other; simpl; try done.
    split; [done|]. apply IH.
  - intros k v md d m _ IH _ _ other. destruct other; simpl; try done.
    split; [done|]. apply IH.
  - intros attrs o c b s _ other. destruct other; simpl; done.
  - intros types other. destruct other; simpl; done.
  - intros other. simpl. split; [|done].
    intros [= H%bool_decide_eq_true_1]. by rewrite H.
Qed.

(** ** [CtyTuple] *)

Lemma CtyTuple_validate_from_Ok items : forall i types,
  length items = length types ->
  CtyTuple_validate_from i items types = Ok () <->
  Forall2 (fun item c => isinstance item [c] = true) items types.
Proof.
  induction items as [|item items IH]; intros i [|c types] Hlen;
    simpl in Hlen; try done.
  cbn [CtyTuple_validate_from].
  destruct (isinstance item [c]) eqn:E; simpl.
  - rewrite IH by lia. split; [by constructor|].
    by intros [_ ?]%Forall2_cons.
  - split; [done|]. intros [E' _]%Forall2_cons.
    change (isinstance item [c] = true) in E'. congruence.
Qed.

(** X12: [CtyTuple.validate] returns exactly for a tuple with one item per
    slot, each an instance of its slot's class, and then returns nothing:
    the validated items are not handed back. *)
Theorem CtyTuple_validate_Ok_iff types v r :
  validate (CtyTuple types) v = Ok r <->
  exists items,
    v = PTuple items /\ r = PNone
    /\ Forall2 (fun item c => isinstance item [c] = true) items types.
Proof.
  simpl. unfold CtyTuple_validate. split.
  - destruct v; try done. case_bool_decide as Hlen; [simpl|done].
    destruct (CtyTuple_validate_from 0 items types) as [[]|] eqn:E; [|done].
    intros [= <-]. exists items. split_and!; [done|done|].
    by apply (CtyTuple_validate_from_Ok items 0 types).
  - intros (items & -> & -> & Hall).
    pose proof (Forall2_length _ _ _ Hall) as Hlen.
    rewrite bool_decide_eq_true_2 by done. simpl.
    by rewrite (proj2 (CtyTuple_validate_from_Ok items 0 types Hlen) Hall).
Qed.

Lemma all_issubclass_prefix types extra :
  all_issubclass (types ++ extra) types = true
  /\ all_issubclass types (types ++ extra) = true.
Proof.
  induction types as [|c types [IH1 IH2]]; simpl.
  - by destruct extra.
  - by rewrite issubclass_refl, IH1, IH2.
Qed.

(** X13: [CtyTuple.usable_as] compares the slots pairwise as far as the
    shorter tuple goes and does not compare the arity: a Tuple is usable as
    any tuple of its first slots and as any extension of itself, while
    [equal] holds of the extension only when nothing is added. *)
Theorem CtyTuple_usable_as_prefix types extra :
  usable_as (CtyTuple (types ++ extra)) (CtyTuple types) = Ok true
  /\ usable_as (CtyTuple types) (CtyTuple (types ++ extra)) = Ok true
  /\ (equal (CtyTuple types) (CtyTuple (types ++ extra)) = true <->
      extra = []).
Proof.
  simpl. destruct (all_issubclass_prefix types extra) as [-> ->].
  split_and!; [done|done|].
  rewrite bool_decide_eq_true. split.
  - intros H. apply (f_equal length) in H. rewrite length_app in H.
    destruct extra; [done|simpl in H; lia].
  - intros ->. by rewrite app_nil_r.
Qed.

(** ** [CtyMap.validate], continued *)

(** On a value its primitive value type accepts, [_wrap_value] returns an
    instance carrying the value. *)
Lemma CtyMap_wrap_value_primitive value_type nested value_type_validate v :
  is_primitive value_type = true ->
  succeeds (validate value_type v) = true ->
  exists t, CtyMap_wrap_value value_type nested value_type_validate v
            = Ok (PCty t)
            /\ get_value t = Ok v.
Proof.
  intros Hp Hv.
  destruct value_type; try done;
    destruct v as [| | | | | | | | | | | | |[]]; try done; by eexists.
Qed.

Lemma dict_store_fresh (kvs : list (string * PyVal)) k v :
  k ∉ kvs.*1 ->
  dict_store (str_dict kvs) (PStr k) v = str_dict (kvs ++ [(k, v)])%list.
Proof.
  induction kvs as [|[k0 v0] kvs IH]; intros Hk; [done|].
  apply not_elem_of_cons in Hk as [Hne Hk].
  change (str_dict ((k0, v0) :: kvs)) with ((PStr k0, v0) :: str_dict kvs).
  change (str_dict (((k0, v0) :: kvs) ++ [(k, v)]))
    with ((PStr k0, v0) :: str_dict (kvs ++ [(k, v)])).
  cbn [dict_store].
  rewrite same_key_PStr_PStr, bool_decide_eq_false_2 by done.
  by rewrite IH.
Qed.

Lemma CtyMap_validate_from_native key_value value_type nested vtv
    (kvs : list (string * PyVal)) :
  is_primitive value_type = true ->
  forall acc : list (string * PyVal),
  NoDup ((acc ++ kvs)%list.*1) ->
  Forall (fun kv => succeeds (validate value_type kv.2) = true) kvs ->
  CtyMap_validate_from (validate (CtyString key_value))
    (CtyMap_wrap_value value_type nested vtv) (str_dict kvs) (str_dict acc)
  = Ok (str_dict (acc ++ kvs)%list).
Proof.
  intros Hp. induction kvs as [|[k v] kvs IH]; intros acc Hnd Hall.
  - by rewrite app_nil_r.
  - apply Forall_cons in Hall as [Hv Hall]. simpl in Hv.
    destruct (CtyMap_wrap_value_primitive value_type nested vtv v Hp Hv)
      as (t & Hw & Ht).
    change (str_dict ((k, v) :: kvs)) with ((PStr k, v) :: str_dict kvs).
    cbn [CtyMap_validate_from]. rewrite Hw.
    change (validate (CtyString key_value) (PStr k))
      with (Ok (PCty (CtyString (PStr k)))).
    cbn [mbind Result_bind unwrap_value]. rewrite Ht.
    cbn [mbind Result_bind get_value dict_set py_hash].
    assert (k ∉ acc.*1) as Hk.
    { rewrite fmap_app in Hnd. apply NoDup_app in Hnd as (_ & Hd & _).
      intros Hin. apply (Hd _ Hin). by left. }
    rewrite dict_store_fresh by done.
    specialize (IH (acc ++ [(k, v)])%list).
    rewrite <- app_assoc in IH. by apply IH.
Qed.

(** X14: with String keys and a primitive value type, [CtyMap.validate]
    hands back the mapping it was given - the keys and the values as they
    were, unwrapped, in the order of the input - as a dictionary when the
    map is mutable and as a read-only view otherwise. *)
Theorem CtyMap_validate_native
    key_value value_type metadata default mutable kvs :
  is_primitive value_type = true ->
  NoDup (kvs.*1) ->
  Forall (fun kv => succeeds (validate value_type kv.2) = true) kvs ->
  validate (CtyMap (CtyString key_value) value_type metadata default mutable)
    (PDict (str_dict kvs))
  = Ok (map_result mutable (str_dict kvs)).
Proof.
  intros Hp Hnd Hall. rewrite validate_CtyMap, validate_map_unfold.
  unfold CtyMap_validate.
  by rewrite (CtyMap_validate_from_native key_value value_type _ _ kvs Hp []).
Qed.

(** X15: what an immutable Map returns is a read-only view, and no Map
    accepts a read-only view: validating the result again raises "Expected
    dict, got mappingproxy". *)
Theorem CtyMap_validate_immutable_result
    key_type value_type metadata default v r
    key_type' value_type' metadata' default' mutable' :
  validate (CtyMap key_type value_type metadata default false) v = Ok r ->
  validate (CtyMap key_type' value_type' metadata' default' mutable') r
  = raise ValidationError (ExpectedDict "mappingproxy").
Proof.
  rewrite !validate_CtyMap, !validate_map_unfold.
  intros [validated ->]%CtyMap_validate_result. reflexivity.
Qed.

(** X16: [_wrap_value] returns a descriptor instance as it is, whatever the
    value type: the instance is not validated against the value type, and
    [validate] stores its [value] - or raises the [AttributeError] of an
    instance that has none. *)
Theorem CtyMap_validate_instance_unchecked
    key_value value_type metadata default mutable k t :
  validate (CtyMap (CtyString key_value) value_type metadata default mutable)
    (PDict [(PStr k, PCty t)])
  = match get_value t with
    | Ok v => Ok (map_result mutable [(PStr k, v)])
    | Raise e => Raise e
    end.
Proof.
  rewrite validate_CtyMap, validate_map_unfold.
  unfold CtyMap_validate, CtyMap_validate_from.
  destruct value_type; simpl; by destruct (get_value t).
Qed.

Lemma CtyMap_wrap_value_scalar value_type nested vtv v :
  is_scalar v = true ->
  is_primitive value_type = false ->
  cty_class value_type <> c_CtyMap ->
  succeeds (CtyMap_wrap_value value_type nested vtv v) = false.
Proof.
  intros Hs Hp Hm. destruct value_type; try done; by destruct v.
Qed.

(** X17: a Map whose value type is a List, Set, Object, Tuple or Dynamic
    descriptor accepts no scalar value: [_wrap_value] only knows the
    primitives and nested maps, so a mapping holding a value that is not a
    descriptor instance, a list or a dictionary is always rejected. *)
Theorem CtyMap_validate_scalar_rejected
    key_type value_type metadata default mutable items k v :
  is_primitive value_type = false ->
  cty_class value_type <> c_CtyMap ->
  (k, v) ∈ items ->
  is_scalar v = true ->
  succeeds (validate (CtyMap key_type value_type metadata default mutable)
              (PDict items)) = false.
Proof.
  intros Hp Hm Hin Hs. rewrite validate_CtyMap, validate_map_unfold.
  unfold CtyMap_validate.
  destruct (CtyMap_validate_from _ _ _ _) as [validated|] eqn:E; [|done].
  eapply CtyMap_validate_from_wrapped in E; [|exact Hin].
  by rewrite CtyMap_wrap_value_scalar in E.
Qed.

(** ** [CtyObject.validate] and [CtyObject.get_attribute] *)

Lemma same_key_PStr_l name k : same_key (PStr name) k = true -> k = PStr name.
Proof.
  unfold same_key. intros [_ Heq]%andb_prop.
  destruct k; simpl in Heq; try done.
  by apply bool_decide_eq_true_1 in Heq as ->.
Qed.

Lemma validators_names (attrs : list (string * CtyType)) :
  (map (fun nt : string * CtyType => (nt.1, validate nt.2)) attrs).*1
  = attrs.*1.
Proof. induction attrs as [|[n t] attrs IH]; simpl; by f_equal. Qed.

(** X18: the schema of an Object is closed and its required attributes are
    demanded: when [CtyObject.validate] returns for a mapping, every key of
    the mapping is the name of an attribute and every required attribute is
    a key of the mapping. *)
Theorem CtyObject_validate_closed attrs opt comp blk sens entries r :
  validate (CtyObject attrs opt comp blk sens) (PDict entries) = Ok r ->
  (forall k, k ∈ entries.*1 ->
     exists name, k = PStr name /\ name ∈ attribute_names attrs)
  /\ (forall name,
        name ∈ required_attributes (CtyObject attrs opt comp blk sens) ->
        is_Some (dict_get entries (PStr name))).
Proof.
  simpl. unfold CtyObject_validate. rewrite validators_names.
  destruct (list_find _ _) as [[? ?]|] eqn:Hreq; [done|].
  destruct (filter _ _) eqn:Hunknown; [|by destruct (join_names _)].
  intros _. split.
  - intros k Hk.
    destruct (existsb (fun n => same_key (PStr n) k) (attrs.*1)) eqn:E.
    + apply existsb_exists in E as (name & Hname & Heq).
      apply same_key_PStr_l in Heq as ->. exists name. split; [done|].
      by apply elem_of_list_to_set, list_elem_of_In.
    + exfalso. eapply (filter_nil_not_elem_of _ _ k Hunknown); [|done].
      rewrite E. by intros [].
  - intros name Hname. apply list_find_None in Hreq.
    rewrite Forall_forall in Hreq.
    apply elem_of_elements, Hreq in Hname.
    by destruct (dict_get entries (PStr name)).
Qed.

(** The loop leaves alone the names it has no attribute for. *)
Lemma CtyObject_validate_from_stable attrs opt comp value name :
  name ∉ attrs.*1 ->
  forall validated result,
  CtyObject_validate_from attrs opt comp value validated = Ok result ->
  dict_get result (PStr name) = dict_get validated (PStr name).
Proof.
  induction attrs as [|[n attr_validate] attrs IH]; simpl;
    intros Hname validated result Hresult.
  - by injection Hresult as <-.
  - apply not_elem_of_cons in Hname as [Hne Hname].
    destruct (dict_get value (PStr n)) as [attr_value|].
    + destruct (attr_validate attr_value) as [x|e].
      * rewrite (IH Hname _ _ Hresult). by apply dict_get_store_ne.
      * by destruct (is_ValidationError (exc_class e)).
    + rewrite (IH Hname _ _ Hresult).
      destruct (_ || _); [|done]. by apply dict_get_store_ne.
Qed.

(** What the loop binds an attribute to. *)
Lemma CtyObject_validate_from_bound attrs opt comp value name attr_validate :
  NoDup (attrs.*1) ->
  (name, attr_validate) ∈ attrs ->
  forall validated result,
  CtyObject_validate_from attrs opt comp value validated = Ok result ->
  match dict_get value (PStr name) with
  | Some v => exists x, attr_validate v = Ok x
                        /\ dict_get result (PStr name) = Some x
  | None => dict_get result (PStr name) = Some PNone
            \/ dict_get result (PStr name) = dict_get validated (PStr name)
  end.
Proof.
  induction attrs as [|[n av] attrs IH]; simpl;
    intros Hnd Hin validated result Hresult.
  - by apply elem_of_nil in Hin.
  - apply NoDup_cons in Hnd as [Hn Hnd].
    apply elem_of_cons in Hin as [[= <- <-]|Hin].
    + destruct (dict_get value (PStr name)) as [v|].
      * destruct (attr_validate v) as [x|e] eqn:Hv;
          [|by destruct (is_ValidationError (exc_class e))].
        exists x. split; [done|].
        rewrite (CtyObject_validate_from_stable _ _ _ _ _ Hn _ _ Hresult).
        apply dict_get_store_eq.
      * rewrite (CtyObject_validate_from_stable _ _ _ _ _ Hn _ _ Hresult).
        destruct (_ || _); [left|by right]. apply dict_get_store_eq.
    + assert (name <> n) as Hne.
      { intros ->. apply Hn. apply list_elem_of_fmap.
        by exists (n, attr_validate). }
      destruct (dict_get value (PStr n)) as [attr_value|].
      * destruct (av attr_value) as [x|e];
          [|by destruct (is_ValidationError (exc_class e))].
        specialize (IH Hnd Hin _ _ Hresult).
        destruct (dict_get value (PStr name)); [done|].
        by rewrite dict_get_store_ne in IH.
      * specialize (IH Hnd Hin _ _ Hresult).
        destruct (dict_get value (PStr name)); [done|].
        destruct (_ || _); [|done]. by rewrite dict_get_store_ne in IH.
Qed.

(** X19: reading a validated object back with [CtyObject.get_attribute]:
    for an attribute present in the input it gives what the attribute's
    descriptor returns for the input's value, for an attribute absent from
    the input it gives null; for a name that is no attribute it raises. *)
Theorem CtyObject_get_attribute_validate
    attrs opt comp blk sens entries r name :
  NoDup (attrs.*1) ->
  validate (CtyObject attrs opt comp blk sens) (PDict entries) = Ok r ->
  match attr_lookup name attrs with
  | Some t =>
      exists x, CtyObject_get_attribute attrs r name = inl x
                /\ match dict_get entries (PStr name) with
                   | Some v => validate t v = Ok x
                   | None => x = PNone
                   end
  | None => CtyObject_get_attribute attrs r name = inr (GetAttributeUnknown name)
  end.
Proof.
  intros Hnd. simpl. unfold CtyObject_validate. intros Hr.
  destruct (list_find _ _) as [[? ?]|]; [done|].
  destruct (filter _ _); [|by destruct (join_names _)].
  destruct (CtyObject_validate_from _ _ _ _ _) as [validated|] eqn:E;
    [|done].
  injection Hr as <-. unfold CtyObject_get_attribute, CtyObject_has_attribute.
  destruct (attr_lookup name attrs) as [t|] eqn:Ht.
  - rewrite bool_decide_eq_true_2 by done. simpl. eexists. split; [done|].
    assert ((name, validate t)
            ∈ map (fun nt : string * CtyType => (nt.1, validate nt.2)) attrs)
      as Hin.
    { apply attr_lookup_elem_of in Ht. apply list_elem_of_fmap.
      by exists (name, t). }
    eapply CtyObject_validate_from_bound in E;
      [|by rewrite validators_names|exact Hin].
    destruct (dict_get entries (PStr name)) as [v|].
    + destruct E as (x & Hx & ->). done.
    + by destruct E as [->| ->].
  - rewrite bool_decide_eq_false_2; [done|]. by intros [? ?].
Qed.

(** ** The Object builders *)

Lemma CtyObject_build_classified attrs opt comp blk sens :
  opt ∪ comp ∪ blk ∪ sens ⊆ attribute_names attrs ->
  CtyObject_build attrs opt comp blk sens
  = inl (CtyObject attrs opt comp blk sens).
Proof.
  intros H. unfold CtyObject_build. by rewrite CtyObject_construction_Ok.
Qed.

Lemma unknown_names_empty attrs names :
  unknown_names attrs names = ∅ <->
  list_to_set names ⊆ attribute_names attrs.
Proof.
  unfold unknown_names. split; [|set_solver].
  intros H x Hx. destruct (decide (x ∈ attribute_names attrs)); [done|].
  set_solver.
Qed.

(** X20: marking attributes optional and then required again gives the
    Object back: on an Object that construction accepts, for attribute names
    not yet optional, [with_optional_attributes] adds the names to the
    optional set and [with_required_attributes] on its result returns the
    original descriptor. *)
Theorem CtyObject_with_optional_required attrs opt comp blk sens names :
  classified (CtyObject attrs opt comp blk sens) ->
  list_to_set names ⊆ attribute_names attrs ->
  list_to_set names ## opt ->
  CtyObject_with_optional_attributes attrs opt comp blk sens names
  = inl (CtyObject attrs (opt ∪ list_to_set names) comp blk sens)
  /\ CtyObject_with_required_attributes attrs (opt ∪ list_to_set names)
       comp blk sens names
     = inl (CtyObject attrs opt comp blk sens).
Proof.
  simpl. intros Hc Hnames Hdisj.
  unfold CtyObject_with_optional_attributes,
    CtyObject_with_required_attributes.
  rewrite (bool_decide_eq_true_2 _ (proj2 (unknown_names_empty _ _) Hnames)).
  simpl. split.
  - apply CtyObject_build_classified. set_solver.
  - rewrite bool_decide_eq_true_2 by set_solver. simpl.
    replace ((opt ∪ list_to_set names) ∖ list_to_set names) with opt
      by set_solver.
    by apply CtyObject_build_classified.
Qed.

Lemma required_attributes_elem_of attrs opt comp blk sens name :
  name ∈ required_attributes (CtyObject attrs opt comp blk sens) <->
  name ∈ attribute_names attrs /\ (name ∉ opt) /\ (name ∉ comp).
Proof.
  simpl. rewrite elem_of_required_names. unfold attribute_names.
  by rewrite elem_of_list_to_set.
Qed.

(** X21: [with_optional_attributes] and [with_computed_attributes] on an
    Object that construction accepts: for names that are all attributes,
    each returns the Object with the names added to its set, and the names
    are no longer required; otherwise each raises the error listing exactly
    the names that are no attribute. *)
Theorem CtyObject_with_optional_computed attrs opt comp blk sens names :
  let O := CtyObject attrs opt comp blk sens in
  let O1 := CtyObject attrs (opt ∪ list_to_set names) comp blk sens in
  let O2 := CtyObject attrs opt (comp ∪ list_to_set names) blk sens in
  classified O ->
  (list_to_set names ⊆ attribute_names attrs ->
   CtyObject_with_optional_attributes attrs opt comp blk sens names = inl O1
   /\ CtyObject_with_computed_attributes attrs opt comp blk sens names = inl O2
   /\ classified O1 /\ classified O2
   /\ required_attributes O1 = required_attributes O ∖ list_to_set names
   /\ required_attributes O2 = required_attributes O ∖ list_to_set names)
  /\ (~ list_to_set names ⊆ attribute_names attrs ->
      exists unknown,
        CtyObject_with_optional_attributes attrs opt comp blk sens names
        = inr (BuilderUnknownAttributes unknown)
        /\ CtyObject_with_computed_attributes attrs opt comp blk sens names
           = inr (BuilderUnknownAttributes unknown)
        /\ forall x, x ∈ unknown <->
                     x ∈ names /\ x ∉ attribute_names attrs).
Proof.
  intros O O1 O2 Hc. simpl in Hc.
  unfold CtyObject_with_optional_attributes,
    CtyObject_with_computed_attributes.
  split; intros Hnames.
  - rewrite (bool_decide_eq_true_2 _ (proj2 (unknown_names_empty _ _) Hnames)).
    simpl. rewrite !CtyObject_build_classified by set_solver.
    split_and!; try done; try (simpl; set_solver).
    + apply set_eq. intros x. rewrite elem_of_difference.
      rewrite !elem_of_required_names. set_solver.
    + apply set_eq. intros x. rewrite elem_of_difference.
      rewrite !elem_of_required_names. set_solver.
  - rewrite bool_decide_eq_false_2
      by (by rewrite unknown_names_empty).
    simpl. eexists. split_and!; [done|done|].
    intros x. rewrite elem_of_elements. unfold unknown_names.
    rewrite elem_of_difference, elem_of_list_to_set. done.
Qed.

(** X22: [with_block_attributes] and [with_sensitive_attributes] change
    neither what is required nor what [validate] does: for names that are
    all attributes, the Object each returns has the required attributes of
    the receiver and validates every value as the receiver does. *)
Theorem CtyObject_with_block_sensitive attrs opt comp blk sens names :
  let O := CtyObject attrs opt comp blk sens in
  classified O ->
  list_to_set names ⊆ attribute_names attrs ->
  exists O1 O2,
    CtyObject_with_block_attributes attrs opt comp blk sens names = inl O1
    /\ CtyObject_with_sensitive_attributes attrs opt comp blk sens names
       = inl O2
    /\ required_attributes O1 = required_attributes O
    /\ required_attributes O2 = required_attributes O
    /\ (forall v, validate O1 v = validate O v)
    /\ (forall v, validate O2 v = validate O v).
Proof.
  intros O Hc Hnames. simpl in Hc.
  unfold CtyObject_with_block_attributes, CtyObject_with_sensitive_attributes.
  rewrite (bool_decide_eq_true_2 _ (proj2 (unknown_names_empty _ _) Hnames)).
  simpl. rewrite !CtyObject_build_classified by set_solver.
  by eexists _, _.
Qed.

(** X23: [with_required_attributes] on an Object that construction accepts,
    for names that are all attributes: when every name is optional it
    returns the Object with the names taken out of the optional set, and
    the names become required unless computed; when some name is not
    optional it raises the error listing exactly those names. *)
Theorem CtyObject_with_required attrs opt comp blk sens names :
  let O := CtyObject attrs opt comp blk sens in
  let O' := CtyObject attrs (opt ∖ list_to_set names) comp blk sens in
  classified O ->
  list_to_set names ⊆ attribute_names attrs ->
  (list_to_set names ⊆ opt ->
   CtyObject_with_required_attributes attrs opt comp blk sens names = inl O'
   /\ required_attributes O'
      = required_attributes O ∪ (list_to_set names ∖ comp))
  /\ (~ list_to_set names ⊆ opt ->
      exists not_optional,
        CtyObject_with_required_attributes attrs opt comp blk sens names
        = inr (BuilderAlreadyRequired not_optional)
        /\ forall x, x ∈ not_optional <-> x ∈ names /\ x ∉ opt).
Proof.
  intros O O' Hc Hnames. simpl in Hc.
  unfold CtyObject_with_required_attributes.
  rewrite (bool_decide_eq_true_2 _ (proj2 (unknown_names_empty _ _) Hnames)).
  simpl. split; intros Hopt.
  - rewrite bool_decide_eq_true_2 by set_solver. simpl.
    rewrite CtyObject_build_classified by set_solver. split; [done|].
    apply set_eq. intros x. rewrite elem_of_union, elem_of_difference.
    rewrite !elem_of_required_names.
    destruct (decide (x ∈ (list_to_set names : gset string))); set_solver.
  - rewrite bool_decide_eq_false_2.
    + simpl. eexists. split; [done|]. intros x.
      by rewrite elem_of_elements, elem_of_difference, elem_of_list_to_set.
    + intros Hempty. apply Hopt. intros x Hx.
      destruct (decide (x ∈ opt)); [done|]. set_solver.
Qed.

Lemma attr_lookup_app name attrs attrs' :
  attr_lookup name (attrs ++ attrs')
  = match attr_lookup name attrs with
    | Some t => Some t
    | None => attr_lookup name attrs'
    end.
Proof.
  induction attrs as [|[n t] attrs IH]; simpl; [done|].
  by case_bool_decide.
Qed.

Lemma attribute_names_app attrs name t :
  attribute_names (attrs ++ [(name, t)]) = attribute_names attrs ∪ {[name]}.
Proof.
  unfold attribute_names. rewrite fmap_app, list_to_set_app_L. simpl.
  set_solver.
Qed.

(** X24: [with_attribute] raises when the name is already an attribute.
    Otherwise, on an Object that construction accepts, it returns an Object
    with the attribute added last under the given type: the earlier
    attributes keep their types, the new name is classified as the flags
    say, and it is required exactly when it is neither optional nor
    computed. *)
Theorem CtyObject_with_attribute_spec
    attrs opt comp blk sens name type_ optional computed block sensitive :
  let O := CtyObject attrs opt comp blk sens in
  classified O ->
  (name ∈ attribute_names attrs ->
   CtyObject_with_attribute attrs opt comp blk sens name type_
     optional computed block sensitive
   = inr (BuilderAlreadyExists name))
  /\ (name ∉ attribute_names attrs ->
      exists opt' comp' blk' sens' O',
        O' = CtyObject (attrs ++ [(name, type_)]) opt' comp' blk' sens'
        /\ CtyObject_with_attribute attrs opt comp blk sens name type_
             optional computed block sensitive
           = inl O'
        /\ classified O'
        /\ attr_lookup name (attrs ++ [(name, type_)]) = Some type_
        /\ (forall n t, attr_lookup n attrs = Some t ->
              attr_lookup n (attrs ++ [(name, type_)]) = Some t)
        /\ (name ∈ opt' <-> optional = true)
        /\ (name ∈ comp' <-> computed = true)
        /\ (name ∈ blk' <-> block = true)
        /\ (name ∈ sens' <-> sensitive = true)
        /\ required_attributes O'
           = required_attributes O
             ∪ (if optional || computed then ∅ else {[name]})).
Proof.
  intros O Hc. simpl in Hc. unfold CtyObject_with_attribute. split.
  - intros Hin%attr_lookup_is_Some. by rewrite bool_decide_eq_true_2.
  - intros Hnot. pose proof Hnot as Hnone%attr_lookup_None.
    rewrite bool_decide_eq_false_2 by (by rewrite attr_lookup_is_Some).
    eexists _, _, _, _, _. split_and!; [reflexivity|..].
    + apply CtyObject_build_classified. rewrite attribute_names_app.
      destruct optional, computed, block, sensitive; set_solver.
    + simpl. rewrite attribute_names_app.
      destruct optional, computed, block, sensitive; set_solver.
    + rewrite attr_lookup_app, Hnone. simpl.
      by rewrite bool_decide_eq_true_2.
    + intros n t Ht. by rewrite attr_lookup_app, Ht.
    + destruct optional; set_solver.
    + destruct computed; set_solver.
    + destruct block; set_solver.
    + destruct sensitive; set_solver.
    + apply set_eq. intros x. rewrite elem_of_union.
      subst O. rewrite !required_attributes_elem_of, attribute_names_app.
      destruct optional, computed; simpl; set_solver.
Qed.

(** ** The errors of [CtyObject.validate] *)

(** X25: a missing required attribute is reported first: when the mapping
    lacks a required attribute, [CtyObject.validate] raises "Missing
    required attribute" naming a required attribute the mapping lacks,
    whatever else the mapping holds. *)
Theorem CtyObject_validate_missing_required
    attrs opt comp blk sens entries missing :
  missing ∈ required_attributes (CtyObject attrs opt comp blk sens) ->
  dict_get entries (PStr missing) = None ->
  exists name,
    validate (CtyObject attrs opt comp blk sens) (PDict entries)
    = raise ValidationError (MissingRequired name)
    /\ name ∈ required_attributes (CtyObject attrs opt comp blk sens)
    /\ dict_get entries (PStr name) = None.
Proof.
  intros Hreq Hmissing. simpl. unfold CtyObject_validate.
  rewrite validators_names.
  destruct (list_find _ _) as [[i name]|] eqn:Hfind.
  - apply list_find_Some in Hfind as (Hi & Hnone & _).
    exists name. split_and!; [done| |done].
    apply elem_of_elements, list_elem_of_lookup. by exists i.
  - apply list_find_None in Hfind. rewrite Forall_forall in Hfind.
    simpl in Hreq. apply elem_of_elements in Hreq.
    by destruct (Hfind _ Hreq).
Qed.




Lemma CtyObject_validate_from_attribute_error
    pre name attr_validate post opt comp value v e :
  Forall (fun na : string * Validator =>
            match dict_get value (PStr na.1) with
            | Some x => succeeds (na.2 x) = true
            | None => True
            end) pre ->
  dict_get value (PStr name) = Some v ->
  attr_validate v = Raise e ->
  forall validated,
  CtyObject_validate_from (pre ++ (name, attr_validate) :: post)%list
    opt comp value validated
  = raise ValidationError
      (if is_ValidationError (exc_class e)
       then InvalidValueForAttribute name (exc_msg e)
       else ErrorValidatingAttribute name (exc_msg e)).
Proof.
  intros Hpre Hv He.
  induction pre as [|[n av] pre IH]; simpl; intros validated.
  - rewrite Hv, He. by destruct (is_ValidationError (exc_class e)).
  - apply Forall_cons in Hpre as [Hn Hpre]. simpl in Hn.
    destruct (dict_get value (PStr n)) as [x|]; [|by apply IH].
    destruct (av x); [by apply IH|done].
Qed.

(** X27: an attribute's error is wrapped with the attribute's name: for a
    mapping that passes the required and unknown checks, when the first
    attribute, in schema order, whose value its descriptor rejects is
    [name], [CtyObject.validate] raises a [ValidationError] naming [name]
    and carrying the descriptor's message - "Invalid value for attribute"
    for a [ValidationError], "Error validating attribute" for any other
    exception. *)
Theorem CtyObject_validate_attribute_error
    pre name t post opt comp blk sens entries v e :
  let attrs := (pre ++ (name, t) :: post)%list in
  (forall n, n ∈ required_attributes (CtyObject attrs opt comp blk sens) ->
     is_Some (dict_get entries (PStr n))) ->
  (forall k, k ∈ entries.*1 ->
     exists n, k = PStr n /\ n ∈ attribute_names attrs) ->
  Forall (fun nt : string * CtyType =>
            match dict_get entries (PStr nt.1) with
            | Some x => succeeds (validate nt.2 x) = true
            | None => True
            end) pre ->
  dict_get entries (PStr name) = Some v ->
  validate t v = Raise e ->
  validate (CtyObject attrs opt comp blk sens) (PDict entries)
  = raise ValidationError
      (if is_ValidationError (exc_class e)
       then InvalidValueForAttribute name (exc_msg e)
       else ErrorValidatingAttribute name (exc_msg e)).
Proof.
  intros attrs Hreq Hknown Hpre Hv He. simpl. unfold CtyObject_validate.
  rewrite validators_names.
  destruct (list_find _ _) as [[i n]|] eqn:Hfind.
  { apply list_find_Some in Hfind as (Hi & Hnone & _).
    destruct (Hreq n) as [x Hx]; [|by rewrite Hx in Hnone].
    simpl. apply elem_of_elements, list_elem_of_lookup. by exists i. }
  destruct (filter _ _) as [|k unknown] eqn:Hunknown.
  - subst attrs. rewrite map_app. simpl.
    rewrite (CtyObject_validate_from_attribute_error _ name (validate t)
               _ opt comp entries v e); [done| |done|done].
    clear -Hpre. induction Hpre as [|[n u] pre Hn _ IH]; simpl;
      by constructor.
  - assert (k ∈ filter
              (fun k => ¬ existsb (fun n => same_key (PStr n) k) (attrs.*1))
              (entries.*1)) as Hk by (rewrite Hunknown; by left).
    apply list_elem_of_filter in Hk as [Hk Hin].
    destruct (Hknown _ Hin) as (n & -> & Hn). destruct Hk.
    apply Is_true_true, existsb_exists. exists n. split.
    + apply elem_of_list_to_set in Hn. by apply list_elem_of_In.
    + by rewrite same_key_PStr_PStr, bool_decide_eq_true_2.
Qed.

(** ** The further properties at concrete inputs *)

Lemma CtySet_validate_aggregates_example :
  exists errs,
    validate (CtySet tNumber []) (PList [PInt 1; PStr "a"; PSet []])
    = raise ValidationError (SetValidationFailed errs)
    /\ errs.*1 = [(1%nat, PStr "a"); (2%nat, PSet [])].
Proof.
  apply (proj2 (CtySet_validate_aggregates tNumber []
                  (PInt 1) [PStr "a"; PSet []])).
  discriminate.
Defined.


Lemma CtySet_validate_rejected_item_example :
  exists errs m,
    validate (CtySet tNumber []) (PList [PInt 1; PFrozenSet []])
    = raise ValidationError (SetValidationFailed errs)
    /\ (1%nat, PFrozenSet [], m) ∈ errs
    /\ (isinstance (PFrozenSet []) [c_set; c_frozenset] = true
        -> m = NestedSets).
Proof.
  apply (CtySet_validate_rejected_item tNumber []
           [PInt 1; PFrozenSet []] 1 (PFrozenSet [])); reflexivity.
Defined.

Lemma CtySet_add_rejects_receiver_example :
  exists m, CtySet_add tNumber (PInt 2) [PCty (CtyNumber (PInt 1))]
            = (raise ValidationError (FailedToAdd m),
               [PCty (CtyNumber (PInt 1))]).
Proof.
  apply (CtySet_add_rejects_receiver tNumber (PInt 2)
           [PCty (CtyNumber (PInt 1))] (PCty (CtyNumber (PInt 1)))).
  - apply list_elem_of_here.
  - left. reflexivity.
  - reflexivity.
Defined.


Lemma CtyList_element_at_validate_example :
  let l := [PInt 1; PInt 2] in
  let r := PList [PCty (CtyNumber (PInt 1)); PCty (CtyNumber (PInt 2))] in
  (forall (i : nat) x, l !! i = Some x ->
     exists y, validate tNumber x = Ok y
               /\ CtyList_element_at r (Z.of_nat i) = inl y
               /\ CtyList_element_at r (Z.of_nat i - Z.of_nat (length l))
                  = inl y)
  /\ (forall index,
        (index < - Z.of_nat (length l) \/ Z.of_nat (length l) <= index)%Z ->
        CtyList_element_at r index
        = inr (ElementAtIndexError index (length l))).
Proof.
  intros l r. apply (CtyList_element_at_validate tNumber l r). reflexivity.
Defined.

Lemma equal_same_class_example :
  cty_class (CtyList tString) = cty_class (CtyList tString).
Proof.
  apply (equal_same_class (CtyList tString) (CtyList tString)). reflexivity.
Defined.

Lemma equal_reflexive_example :
  let t := CtyMap tString (CtyList tNumber)
             (PDict [(PStr "unit", PStr "ms")]) PNone false in
  equal t t = true.
Proof. intros t. apply (equal_reflexive t). reflexivity. Defined.

Lemma CtyObject_equal_usable_as_example :
  let attrs := [("x", tString); ("y", tNumber)] in
  usable_as (CtyObject attrs {["y"]} ∅ ∅ ∅) (CtyObject attrs {["y"]} ∅ ∅ ∅)
  = Ok true.
Proof.
  intros attrs.
  apply (CtyObject_equal_usable_as attrs {["y"]} ∅ ∅ ∅ attrs {["y"]} ∅ ∅ ∅).
  reflexivity.
Defined.

Lemma usable_as_outcomes_example :
  let t := CtySet tString [] in
  cty_class t = cty_class t /\ cty_class t <> c_CtyList.
Proof.
  intros t. apply (proj1 (usable_as_outcomes t t)). reflexivity.
Defined.

Lemma CtyMap_validate_native_example :
  let kvs := [("a", PInt 1); ("b", PFloat 2)] in
  validate (CtyMap tString tNumber PNone PNone true) (PDict (str_dict kvs))
  = Ok (map_result true (str_dict kvs)).
Proof.
  intros kvs.
  apply (CtyMap_validate_native (PStr EmptyString) tNumber PNone PNone true kvs).
  - reflexivity.
  - repeat (apply NoDup_cons_2; [set_solver|]). apply NoDup_nil_2.
  - repeat constructor.
Defined.

Lemma CtyMap_validate_immutable_result_example :
  validate (CtyMap tString tNumber PNone PNone false)
    (PMappingProxy [(PStr "a", PInt 1)])
  = raise ValidationError (ExpectedDict "mappingproxy").
Proof.
  apply (CtyMap_validate_immutable_result tString tNumber PNone PNone
           (PDict [(PStr "a", PInt 1)]) _ tString tNumber PNone PNone false).
  reflexivity.
Defined.

Lemma CtyMap_validate_scalar_rejected_example :
  succeeds (validate (CtyMap tString CtyDynamic PNone PNone false)
              (PDict [(PStr "a", PInt 1)])) = false.
Proof.
  apply (CtyMap_validate_scalar_rejected tString CtyDynamic PNone PNone false
           [(PStr "a", PInt 1)] (PStr "a") (PInt 1)).
  - reflexivity.
  - discriminate.
  - apply list_elem_of_here.
  - reflexivity.
Defined.

Lemma name_count_classified :
  classified (CtyObject name_count_attrs {["count"]} ∅ ∅ ∅).
Proof.
  unfold classified, attribute_names, name_count_attrs.
  apply (bool_decide_unpack _). vm_compute. exact I.
Qed.

Lemma name_count_required :
  required_attributes (CtyObject name_count_attrs {["count"]} ∅ ∅ ∅)
  = {["name"]}.
Proof. reflexivity. Qed.

Lemma name_count_NoDup : NoDup (name_count_attrs.*1).
Proof. repeat (apply NoDup_cons_2; [set_solver|]). apply NoDup_nil_2. Qed.

Lemma CtyObject_validate_closed_example :
  let O := CtyObject name_count_attrs {["count"]} ∅ ∅ ∅ in
  let entries := [(PStr "name", PStr "x")] in
  (forall k, k ∈ entries.*1 ->
     exists name, k = PStr name /\ name ∈ attribute_names name_count_attrs)
  /\ (forall name, name ∈ required_attributes O ->
        is_Some (dict_get entries (PStr name))).
Proof.
  intros O entries.
  apply (CtyObject_validate_closed name_count_attrs {["count"]} ∅ ∅ ∅ entries
           (PDict [(PStr "name", PCty (CtyString (PStr "x")));
                   (PStr "count", PNone)])).
  reflexivity.
Defined.

Lemma CtyObject_get_attribute_validate_example :
  let r := PDict [(PStr "name", PCty (CtyString (PStr "x")));
                  (PStr "count", PNone)] in
  exists x, CtyObject_get_attribute name_count_attrs r "name" = inl x
            /\ validate tString (PStr "x") = Ok x.
Proof.
  intros r.
  apply (CtyObject_get_attribute_validate name_count_attrs {["count"]} ∅ ∅ ∅
           [(PStr "name", PStr "x")] r "name").
  - exact name_count_NoDup.
  - reflexivity.
Defined.

Lemma CtyObject_with_optional_required_example :
  CtyObject_with_optional_attributes name_count_attrs {["count"]} ∅ ∅ ∅
    ["name"]
  = inl (CtyObject name_count_attrs ({["count"]} ∪ list_to_set ["name"])
           ∅ ∅ ∅)
  /\ CtyObject_with_required_attributes name_count_attrs
       ({["count"]} ∪ list_to_set ["name"]) ∅ ∅ ∅ ["name"]
     = inl (CtyObject name_count_attrs {["count"]} ∅ ∅ ∅).
Proof.
  apply (CtyObject_with_optional_required name_count_attrs {["count"]} ∅ ∅ ∅
           ["name"]).
  - exact name_count_classified.
  - unfold attribute_names, name_count_attrs.
    apply (bool_decide_unpack _). vm_compute. exact I.
  - simpl. set_solver.
Defined.

Lemma CtyObject_with_optional_computed_example :
  let O := CtyObject name_count_attrs {["count"]} ∅ ∅ ∅ in
  let O1 := CtyObject name_count_attrs ({["count"]} ∪ list_to_set ["name"])
              ∅ ∅ ∅ in
  CtyObject_with_optional_attributes name_count_attrs {["count"]} ∅ ∅ ∅
    ["name"] = inl O1
  /\ required_attributes O1 = required_attributes O ∖ list_to_set ["name"].
Proof.
  intros O O1.
  destruct (proj1 (CtyObject_with_optional_computed name_count_attrs
                     {["count"]} ∅ ∅ ∅ ["name"] name_count_classified))
    as (H1 & _ & _ & _ & H5 & _).
  - unfold attribute_names, name_count_attrs.
    apply (bool_decide_unpack _). vm_compute. exact I.
  - by split.
Defined.

Lemma CtyObject_with_block_sensitive_example :
  let O := CtyObject name_count_attrs {["count"]} ∅ ∅ ∅ in
  exists O1 O2,
    CtyObject_with_block_attributes name_count_attrs {["count"]} ∅ ∅ ∅
      ["name"] = inl O1
    /\ CtyObject_with_sensitive_attributes name_count_attrs {["count"]} ∅ ∅ ∅
         ["name"] = inl O2
    /\ required_attributes O1 = required_attributes O
    /\ required_attributes O2 = required_attributes O
    /\ (forall v, validate O1 v = validate O v)
    /\ (forall v, validate O2 v = validate O v).
Proof.
  intros O.
  apply (CtyObject_with_block_sensitive name_count_attrs {["count"]} ∅ ∅ ∅
           ["name"] name_count_classified).
  unfold attribute_names, name_count_attrs.
  apply (bool_decide_unpack _). vm_compute. exact I.
Defined.

Lemma CtyObject_with_required_example :
  let O := CtyObject name_count_attrs {["count"]} ∅ ∅ ∅ in
  let O' := CtyObject name_count_attrs ({["count"]} ∖ list_to_set ["count"])
              ∅ ∅ ∅ in
  CtyObject_with_required_attributes name_count_attrs {["count"]} ∅ ∅ ∅
    ["count"] = inl O'
  /\ required_attributes O'
     = required_attributes O ∪ (list_to_set ["count"] ∖ ∅).
Proof.
  intros O O'.
  apply (CtyObject_with_required name_count_attrs {["count"]} ∅ ∅ ∅
           ["count"] name_count_classified).
  - unfold attribute_names, name_count_attrs.
    apply (bool_decide_unpack _). vm_compute. exact I.
  - simpl. set_solver.
Defined.

Lemma CtyObject_with_attribute_spec_example :
  CtyObject_with_attribute name_count_attrs {["count"]} ∅ ∅ ∅
    "name" tBool false false false false
  = inr (BuilderAlreadyExists "name").
Proof.
  apply (proj1 (CtyObject_with_attribute_spec name_count_attrs
                  {["count"]} ∅ ∅ ∅ "name" tBool false false false false
                  name_count_classified)).
  unfold attribute_names, name_count_attrs.
  apply (bool_decide_unpack _). vm_compute. exact I.
Defined.

Lemma CtyObject_validate_missing_required_example :
  let O := CtyObject name_count_attrs {["count"]} ∅ ∅ ∅ in
  let entries := [(PStr "count", PInt 1)] in
  exists name,
    validate O (PDict entries) = raise ValidationError (MissingRequired name)
    /\ name ∈ required_attributes O
    /\ dict_get entries (PStr name) = None.
Proof.
  intros O entries.
  apply (CtyObject_validate_missing_required name_count_attrs
           {["count"]} ∅ ∅ ∅ entries "name").
  - rewrite name_count_required. set_solver.
  - reflexivity.
Defined.


Lemma CtyObject_validate_attribute_error_example :
  validate (CtyObject name_count_attrs {["count"]} ∅ ∅ ∅)
    (PDict [(PStr "name", PInt 5)])
  = raise ValidationError (InvalidValueForAttribute "name" MustBeString).
Proof.
  apply (CtyObject_validate_attribute_error [] "name" tString
           [("count", tNumber)] {["count"]} ∅ ∅ ∅
           [(PStr "name", PInt 5)] (PInt 5)
           (mkExc ValidationError MustBeString)).
  - intros n Hn.
    change (n ∈ required_attributes
                  (CtyObject name_count_attrs {["count"]} ∅ ∅ ∅)) in Hn.
    rewrite name_count_required in Hn.
    apply elem_of_singleton in Hn as ->. by eexists.
  - intros k ->%list_elem_of_singleton. exists "name". split; [done|].
    unfold attribute_names. simpl. set_solver.
  - constructor.
  - reflexivity.
  - reflexivity.
Defined.
